(** * CatalogTable: the catalog plugin's entity table

    A shallow embedding of
    [plugins/catalog/src/components/CatalogTable/CatalogTable.tsx]:
    the component's two state hooks, the effect that mirrors the props,
    the render function, the four table actions and the asynchronous
    [addMockData] callback, followed by the properties of the component. *)

From Stdlib Require Import String Ascii List Bool Arith ZArith Lia.
From Stdlib Require Import Numbers.DecimalString Numbers.DecimalNat.
Import ListNotations.
Local Open Scope list_scope.
Local Open Scope string_scope.

(* ===================================================================== *)
(** ** JavaScript values that can travel through [error?: any]            *)
(* ===================================================================== *)

(** A JavaScript number, through what the component can observe of it: its
    truthiness, its identity under [Object.is] and its string conversion.
    [NaN] and the two zeros are the falsy numbers; any other number stands
    by the string [Number.prototype.toString] gives for it ([42], [-0.5],
    [1e+21], [Infinity]), which determines the number. *)
Inductive JsNumberValue : Type :=
| NaN
| Zero (negative : bool)
| NonZero (text : string).

(** The [error] prop is typed [any] and the value bound by [catch (err)] is
    untyped, so the error state can hold any JavaScript value.
    - [JsError] is a standard [Error] instance: [ref] is the object's
      identity, [name] and [message] the two string properties
      [Error.prototype.toString] reads.
    - [JsObject] is any other object, function or symbol: [ref] is its
      identity and [child] the text React displays for the child
      [{errorState.toString()}], or [None] when evaluating that child
      throws: the value has no callable [toString] (an object created with
      a null prototype, or with [toString] overwritten by a non-function),
      its [toString] throws, or it returns an object, which React refuses
      as a child.
    - [JsDocumentAll] is the legacy [document.all], the one object that is
      falsy. *)
Inductive JsValue : Type :=
| JsUndefined
| JsNull
| JsBool (b : bool)
| JsNumber (n : JsNumberValue)
| JsBigInt (z : Z)
| JsString (s : string)
| JsError (ref : nat) (name message : string)
| JsObject (ref : nat) (child : option string)
| JsDocumentAll.

(** ToBoolean: what [if (errorState)] tests. *)
Definition truthy (v : JsValue) : bool :=
  match v with
  | JsUndefined | JsNull | JsDocumentAll => false
  | JsBool b => b
  | JsNumber NaN | JsNumber (Zero _) => false
  | JsNumber (NonZero _) => true
  | JsBigInt z => negb (Z.eqb z 0)
  | JsString s => negb (String.eqb s "")
  | JsError _ _ _ | JsObject _ _ => true
  end.

(** The text of the child [{v.toString()}], or [None] when evaluating it
    throws.  [undefined] and [null] have no methods: the call throws a
    TypeError. *)
Definition toString (v : JsValue) : option string :=
  match v with
  | JsUndefined | JsNull => None
  | JsBool true => Some "true"
  | JsBool false => Some "false"
  | JsNumber NaN => Some "NaN"
  | JsNumber (Zero _) => Some "0"
  | JsNumber (NonZero text) => Some text
  | JsBigInt z => Some (NilZero.string_of_int (Z.to_int z))
  | JsString s => Some s
  | JsError _ name message =>
      Some (if String.eqb name "" then message
            else if String.eqb message "" then name
            else name ++ ": " ++ message)
  | JsObject _ child => child
  | JsDocumentAll => Some "[object HTMLAllCollection]"
  end.

(** [Object.is], the comparison React applies to effect dependencies:
    primitives by value ([NaN] is [NaN], the two zeros differ), objects by
    identity. *)
Definition Object_is (a b : JsValue) : bool :=
  match a, b with
  | JsUndefined, JsUndefined => true
  | JsNull, JsNull => true
  | JsBool x, JsBool y => Bool.eqb x y
  | JsNumber NaN, JsNumber NaN => true
  | JsNumber (Zero x), JsNumber (Zero y) => Bool.eqb x y
  | JsNumber (NonZero x), JsNumber (NonZero y) => String.eqb x y
  | JsBigInt x, JsBigInt y => Z.eqb x y
  | JsString x, JsString y => String.eqb x y
  | JsError r _ _, JsError r' _ _ => Nat.eqb r r'
  | JsObject r _, JsObject r' _ => Nat.eqb r r'
  | JsDocumentAll, JsDocumentAll => true
  | _, _ => false
  end.

(** Template-literal conversion of an array length. *)
Definition string_of_length (n : nat) : string :=
  NilZero.string_of_uint (Nat.to_uint n).

(** [n || d] on array lengths: [0] is the only falsy length. *)
Definition length_or (n d : nat) : nat :=
  if Nat.eqb n 0 then d else n.

(** The value of a decimal digit, from its character code. *)
Definition digit_value (c : ascii) : option nat :=
  let code := nat_of_ascii c in
  if Nat.leb 48 code && Nat.leb code 57 then Some (code - 48) else None.

Fixpoint decimal_acc (s : string) (acc : nat) : option nat :=
  match s with
  | EmptyString => Some acc
  | String c s' =>
      match digit_value c with
      | Some d => decimal_acc s' (10 * acc + d)
      | None => None
      end
  end.

(** The number a decimal numeral denotes: [None] for the empty string and
    for a string with a character that is not a digit. *)
Definition decimal_value (s : string) : option nat :=
  match s with
  | EmptyString => None
  | _ => decimal_acc s 0
  end.

(** A numeral as a number is written: a single [0], or no leading [0]. *)
Definition canonical_numeral (s : string) : bool :=
  String.eqb s "0" || negb (prefix "0" s).

(* ===================================================================== *)
(** ** String.prototype.includes and String.prototype.replace             *)
(* ===================================================================== *)

(** [s.includes(pat)]. *)
Fixpoint includes (pat s : string) : bool :=
  if prefix pat s then true
  else match s with
       | EmptyString => false
       | String _ s' => includes pat s'
       end.

(** [s] without its first [n] characters. *)
Fixpoint string_drop (n : nat) (s : string) : string :=
  match n, s with
  | O, _ => s
  | S _, EmptyString => EmptyString
  | S n', String _ s' => string_drop n' s'
  end.

(** [s.replace(pat, rep)] for a string pattern [pat] and a replacement
    without [$]: only the first occurrence of [pat] is replaced. *)
Fixpoint replace (pat rep s : string) : string :=
  if prefix pat s then rep ++ string_drop (String.length pat) s
  else match s with
       | EmptyString => EmptyString
       | String c s' => String c (replace pat rep s')
       end.

(* ===================================================================== *)
(** ** The catalog model: entities and locations                          *)
(* ===================================================================== *)

Record EntityMeta : Type := {
  name : string;
  namespace : option string;
  description : option string;
  annotations : list (string * string)
}.

Record EntitySpec : Type := {
  owner : option string;
  lifecycle : option string
}.

Record Entity : Type := {
  kind : string;
  metadata : EntityMeta;
  spec : EntitySpec
}.

Record LocationSpec : Type := {
  type : string;
  target : string
}.

(** An array received as a prop: [array_ref] is the identity React compares,
    [items] the contents. *)
Record EntityArray : Type := {
  array_ref : nat;
  items : list Entity
}.

(* ===================================================================== *)
(** ** Promises                                                           *)
(* ===================================================================== *)

Inductive Settled (A : Type) : Type :=
| Fulfilled (value : A)
| Rejected (reason : JsValue).
Arguments Fulfilled {A} value.
Arguments Rejected {A} reason.

(** A promise returned by a collaborator, with the moment it settles. *)
Record Promise (A : Type) : Type := {
  settled : Settled A;
  settledAt : nat
}.
Arguments settled {A} p.
Arguments settledAt {A} p.

(** The rejection that settles first; among promises rejecting at the same
    moment the one that comes first in the array. *)
Fixpoint first_rejection {A} (ps : list (Promise A)) : option (nat * JsValue) :=
  match ps with
  | [] => None
  | p :: ps' =>
      match settled p, first_rejection ps' with
      | Fulfilled _, r => r
      | Rejected e, None => Some (settledAt p, e)
      | Rejected e, Some (t, e') =>
          if Nat.leb (settledAt p) t then Some (settledAt p, e) else Some (t, e')
      end
  end.

Fixpoint fulfilled_values {A} (ps : list (Promise A)) : list A :=
  match ps with
  | [] => []
  | p :: ps' =>
      match settled p with
      | Fulfilled a => a :: fulfilled_values ps'
      | Rejected _ => fulfilled_values ps'
      end
  end.

(** [Promise.all(ps)]: rejects with the first rejection in time, otherwise
    fulfils with all the values. *)
Definition Promise_all {A} (ps : list (Promise A)) : Settled (list A) :=
  match first_rejection ps with
  | Some (_, e) => Rejected e
  | None => Fulfilled (fulfilled_values ps)
  end.

(** [await] and synchronous calls complete normally or throw. *)
Inductive Completion (A : Type) : Type :=
| Normal (value : A)
| Throw (err : JsValue).
Arguments Normal {A} value.
Arguments Throw {A} err.

(* ===================================================================== *)
(** ** Collaborators                                                      *)
(* ===================================================================== *)

(** The config collaborator obtained with [useApi(configApiRef)]: typed
    lookups that throw when the key is absent or of the wrong type. *)
Record ConfigApi : Type := {
  getStringArray : string -> Completion (list string);
  getString : string -> Completion string
}.

(** Modelled from the spec: the "locationRecord" that [addLocation] resolves
    to; its declaration ([api/types]) is not part of the sources and the
    component discards the value. *)
Record LocationRecord : Type := {
  location : LocationSpec
}.

(** The catalog collaborator obtained with [useApi(catalogApiRef)]: both
    calls act on the catalog backend and return a promise. *)
Record CatalogApi (Backend : Type) : Type := {
  addLocation : string -> string -> Backend -> Promise LocationRecord * Backend;
  getEntities : Backend -> Promise (list Entity) * Backend
}.
Arguments addLocation {Backend} c _ _ _.
Arguments getEntities {Backend} c _.

(** What the component does to the outside world, in the order it does it. *)
Inductive LogEntry : Type :=
| ConfigGetStringArray (key : string) (r : Completion (list string))
| ConfigGetString (key : string) (r : Completion string)
| CatalogAddLocation (type target : string) (p : Promise LocationRecord)
| CatalogGetEntities (p : Promise (list Entity))
| WindowOpen (url windowName : string)
| ToggleStarredEntity (e : Entity).

(** The error with which a logged call failed, if it did. *)
Definition failure (c : LogEntry) : option JsValue :=
  match c with
  | ConfigGetStringArray _ (Throw e) => Some e
  | ConfigGetString _ (Throw e) => Some e
  | CatalogAddLocation _ _ p =>
      match settled p with Rejected e => Some e | Fulfilled _ => None end
  | CatalogGetEntities p =>
      match settled p with Rejected e => Some e | Fulfilled _ => None end
  | _ => None
  end.

(* ===================================================================== *)
(** ** Props and hook state                                               *)
(* ===================================================================== *)

(** The props of the component. *)
Record CatalogTableProps : Type := {
  entities : EntityArray;
  titlePreamble : string;
  loading : bool;
  error : JsValue
}.

(** The two [useState] cells. *)
Record Hooks : Type := {
  entitiesState : list Entity;
  errorState : JsValue
}.

(** [useState<Entity[]>([])] and [useState<Error | undefined>()]. *)
Definition initialHooks : Hooks :=
  {| entitiesState := []; errorState := JsUndefined |}.

(** The dependency array [[error, entities]] of the previous effect run. *)
Definition Deps : Type := (JsValue * EntityArray)%type.

(** React runs an effect on mount and whenever a dependency differs, under
    [Object.is], from its value at the previous render. *)
Definition depsChanged (prev : option Deps) (p : CatalogTableProps) : bool :=
  match prev with
  | None => true
  | Some (e, a) =>
      negb (Object_is e (error p))
      || negb (Nat.eqb (array_ref a) (array_ref (entities p)))
  end.

(* ===================================================================== *)
(** ** The Name column and the shape of a log                             *)
(* ===================================================================== *)

(** [xs.filter(Boolean)] on an array of optional strings: [undefined] and
    the empty string are falsy and dropped. *)
Definition filter_Boolean (xs : list (option string)) : list string :=
  flat_map (fun x => match x with
                     | Some s => if String.eqb s "" then [] else [s]
                     | None => []
                     end)
           xs.

(** [xs.join(sep)]. *)
Fixpoint join (sep : string) (xs : list string) : string :=
  match xs with
  | [] => ""
  | x :: xs' =>
      match xs' with
      | [] => x
      | _ :: _ => x ++ sep ++ join sep xs'
      end
  end.

(** The route parameter computed by the renderer of the Name column:
    [[entity.metadata.namespace, entity.metadata.name]
       .filter(Boolean).join(':')]. *)
Definition optionalNamespaceAndName (entity : Entity) : string :=
  join ":" (filter_Boolean [namespace (metadata entity);
                            Some (name (metadata entity))]).

(** The link rendered in the Name column: the parameters handed to
    [generatePath(entityRoute.path, ...)] and the link text. *)
Record NameLink : Type := {
  param_optionalNamespaceAndName : string;
  param_kind : string;
  link_text : string
}.

Definition renderName (entity : Entity) : NameLink :=
  {| param_optionalNamespaceAndName := optionalNamespaceAndName entity;
     param_kind := kind entity;
     link_text := name (metadata entity) |}.

(** A namespace that [filter(Boolean)] drops counts as no namespace. *)
Definition namespace_or_empty (m : EntityMeta) : string :=
  match namespace m with
  | Some s => s
  | None => ""
  end.

(** The [(type, target)] pairs handed to [addLocation] in a log, in order. *)
Definition registered (cs : list LogEntry) : list (string * string) :=
  flat_map (fun c => match c with
                     | CatalogAddLocation ty tgt _ => [(ty, tgt)]
                     | _ => []
                     end)
           cs.

(** Calls to the config and catalog collaborators, as opposed to opened
    browser contexts and favourite toggles. *)
Definition is_api_call (c : LogEntry) : bool :=
  match c with
  | WindowOpen _ _ | ToggleStarredEntity _ => false
  | _ => true
  end.

(* ===================================================================== *)
(** ** Sample collaborators                                               *)
(* ===================================================================== *)

(** A configuration with two example files under a GitHub base URL. *)
Definition sample_config : ConfigApi :=
  {| getStringArray := fun key =>
       if String.eqb key "catalog.entities"
       then Normal ["artist-lookup.yaml"; "playback-order.yaml"]
       else Throw (JsError 1 "Error" ("Missing required config value at " ++ key));
     getString := fun key =>
       if String.eqb key "catalog.baseUrl"
       then Normal "https://github.com/spotify/backstage/blob/master/examples"
       else Throw (JsError 2 "Error" ("Missing required config value at " ++ key)) |}.

(** The same configuration without the base URL. *)
Definition sample_config_without_baseUrl : ConfigApi :=
  {| getStringArray := getStringArray sample_config;
     getString := fun key =>
       Throw (JsError 2 "Error" ("Missing required config value at " ++ key)) |}.

Definition sample_entity (l : LocationSpec) : Entity :=
  {| kind := "Component";
     metadata := {| name := target l;
                    namespace := None;
                    description := None;
                    annotations :=
                      [("backstage.io/managed-by-location",
                        type l ++ ":" ++ target l)] |};
     spec := {| owner := Some "guest"; lifecycle := Some "experimental" |} |}.

(** A catalog backend that keeps the registered locations and serves one
    component per location. *)
Definition sample_catalog : CatalogApi (list LocationSpec) :=
  {| addLocation := fun ty tgt b =>
       let l := {| type := ty; target := tgt |} in
       ({| settled := Fulfilled {| location := l |};
           settledAt := List.length b |},
        (b ++ [l])%list);
     getEntities := fun b =>
       ({| settled := Fulfilled (map sample_entity b); settledAt := 0 |}, b) |}.

(** A catalog backend that refuses every registration. *)
Definition sample_failing_catalog : CatalogApi (list LocationSpec) :=
  {| addLocation := fun ty tgt b =>
       ({| settled := Rejected (JsError 3 "Error" "Request failed with 500");
           settledAt := List.length b |}, b);
     getEntities := getEntities sample_catalog |}.

(** Locations by entity name: one on GitHub, one on GitLab, none otherwise. *)
Definition sample_findLocation (m : EntityMeta) : option LocationSpec :=
  if String.eqb (name m) "artist-lookup" then
    Some {| type := "github";
            target := "https://github.com/spotify/backstage/blob/master/artist-lookup.yaml" |}
  else if String.eqb (name m) "billing" then
    Some {| type := "gitlab";
            target := "https://gitlab.com/acme/billing/-/blob/master/billing.yaml" |}
  else None.

Definition sample_row (n : string) : Entity :=
  {| kind := "Component";
     metadata := {| name := n; namespace := None; description := None;
                    annotations := [] |};
     spec := {| owner := None; lifecycle := None |} |}.

Definition sample_props (es : list Entity) (e : JsValue) : CatalogTableProps :=
  {| entities := {| array_ref := 1; items := es |};
     titlePreamble := "Components";
     loading := false;
     error := e |}.

Definition sample_favouriteTooltip (isStarred : bool) : string :=
  if isStarred then "Remove from favorites" else "Add to favorites".

(** A catalog backend that records every registration and then refuses it,
    later registrations failing sooner. *)
Definition sample_flaky_catalog : CatalogApi (list LocationSpec) :=
  {| addLocation := fun ty tgt b =>
       ({| settled := Rejected (JsError (10 + List.length b) "Error" tgt);
           settledAt := 10 - List.length b |},
        (b ++ [{| type := ty; target := tgt |}])%list);
     getEntities := getEntities sample_catalog |}.



Section Component.

Variable Backend : Type.
Variable configApi : ConfigApi.
Variable catalogApi : CatalogApi Backend.

(** [findLocationForEntityMeta] of [data/utils], [isStarredEntity] of
    [useStarredEntities] and [favouriteEntityTooltip] of [FavouriteEntity]
    are imported by the component; their sources are not part of it. *)
Variable findLocationForEntityMeta : EntityMeta -> option LocationSpec.
Variable isStarredEntity : Entity -> bool.
Variable favouriteEntityTooltip : bool -> string.

(** The mounted component together with everything its callbacks reach. *)
Record World : Type := {
  hooks : Hooks;
  deps : option Deps;
  backend : Backend;
  log : list LogEntry
}.

Definition with_hooks (h : Hooks) (w : World) : World :=
  {| hooks := h; deps := deps w; backend := backend w; log := log w |}.

Definition with_backend (b : Backend) (w : World) : World :=
  {| hooks := hooks w; deps := deps w; backend := b; log := log w |}.

Definition record (c : LogEntry) (w : World) : World :=
  {| hooks := hooks w; deps := deps w; backend := backend w;
     log := (log w ++ [c])%list |}.

(** *** Callbacks: state passing with exceptions *)

Definition M (A : Type) : Type := World -> Completion A * World.

Definition ret {A} (a : A) : M A := fun w => (Normal a, w).

Definition throw {A} (e : JsValue) : M A := fun w => (Throw e, w).

Definition bind {A B} (m : M A) (k : A -> M B) : M B :=
  fun w =>
    match m w with
    | (Normal a, w') => k a w'
    | (Throw e, w') => (Throw e, w')
    end.

(** [try { body } catch (err) { handler }]. *)
Definition try_catch {A} (body : M A) (handler : JsValue -> M A) : M A :=
  fun w =>
    match body w with
    | (Normal a, w') => (Normal a, w')
    | (Throw e, w') => handler e w'
    end.

Notation "x <- m ;; k" := (bind m (fun x => k))
  (at level 61, m at next level, right associativity).
Notation "m ;;; k" := (bind m (fun _ => k))
  (at level 61, right associativity).

(** [xs.map(f)] for a callback with effects: left to right, stopping at the
    first callback that throws. *)
Fixpoint mapM {A B} (f : A -> M B) (xs : list A) : M (list B) :=
  match xs with
  | [] => ret []
  | x :: xs' =>
      y <- f x ;;
      ys <- mapM f xs' ;;
      ret (y :: ys)
  end.

(** [await] on a settled promise. *)
Definition await {A} (s : Settled A) : M A :=
  match s with
  | Fulfilled a => ret a
  | Rejected e => throw e
  end.

Definition config_getStringArray (key : string) : M (list string) :=
  fun w =>
    let r := getStringArray configApi key in
    (r, record (ConfigGetStringArray key r) w).

Definition config_getString (key : string) : M string :=
  fun w =>
    let r := getString configApi key in
    (r, record (ConfigGetString key r) w).

Definition catalog_addLocation (type target : string) : M (Promise LocationRecord) :=
  fun w =>
    let (p, b) := addLocation catalogApi type target (backend w) in
    (Normal p, record (CatalogAddLocation type target p) (with_backend b w)).

Definition catalog_getEntities : M (Promise (list Entity)) :=
  fun w =>
    let (p, b) := getEntities catalogApi (backend w) in
    (Normal p, record (CatalogGetEntities p) (with_backend b w)).

Definition window_open (url windowName : string) : M unit :=
  fun w => (Normal tt, record (WindowOpen url windowName) w).

Definition toggleStarredEntity (e : Entity) : M unit :=
  fun w => (Normal tt, record (ToggleStarredEntity e) w).

Definition setEntitiesState (data : list Entity) : M unit :=
  fun w =>
    (Normal tt,
     with_hooks {| entitiesState := data; errorState := errorState (hooks w) |} w).

Definition setError (e : JsValue) : M unit :=
  fun w =>
    (Normal tt,
     with_hooks {| entitiesState := entitiesState (hooks w); errorState := e |} w).

(** *** [addMockData] *)

(** The callback given to [map]:
    [file => catalogApi.addLocation('github',
               `${configApi.getString('catalog.baseUrl')}/${file}`)]. *)
Definition registerFile (file : string) : M (Promise LocationRecord) :=
  baseUrl <- config_getString "catalog.baseUrl" ;;
  catalog_addLocation "github" (baseUrl ++ "/" ++ file).

Definition addMockData : M unit :=
  try_catch
    (files <- config_getStringArray "catalog.entities" ;;
     _promises <- mapM registerFile files ;;
     _ <- await (Promise_all _promises) ;;
     p <- catalog_getEntities ;;
     data <- await (settled p) ;;
     setEntitiesState data)
    (fun err => setError err).

(** *** The table actions *)

Record ActionProps : Type := {
  tooltip : string;
  isFreeAction : bool;
  hidden : bool;
  onClick : M unit
}.

(** An entry of [actions] is an object or a function of the row. *)
Inductive Action : Type :=
| RowAction (f : Entity -> ActionProps)
| FixedAction (a : ActionProps).

(** [location?.type !== 'github']. *)
Definition not_github (location : option LocationSpec) : bool :=
  match location with
  | None => true
  | Some l => negb (String.eqb (type l) "github")
  end.

Definition viewAction (rowData : Entity) : ActionProps :=
  let location := findLocationForEntityMeta (metadata rowData) in
  {| tooltip := "View on GitHub";
     isFreeAction := false;
     onClick := match location with
                | None => ret tt
                | Some l => window_open (target l) "_blank"
                end;
     hidden := not_github location |}.

Definition createEditLink (location : LocationSpec) : string :=
  if String.eqb (type location) "github"
  then replace "/blob/" "/edit/" (target location)
  else target location.

Definition editAction (rowData : Entity) : ActionProps :=
  let location := findLocationForEntityMeta (metadata rowData) in
  {| tooltip := "Edit";
     isFreeAction := false;
     onClick := match location with
                | None => ret tt
                | Some l => window_open (createEditLink l) "_blank"
                end;
     hidden := not_github location |}.

Definition favouriteAction (rowData : Entity) : ActionProps :=
  let isStarred := isStarredEntity rowData in
  {| tooltip := favouriteEntityTooltip isStarred;
     isFreeAction := false;
     onClick := toggleStarredEntity rowData;
     hidden := false |}.

(** [hidden: entitiesState && entitiesState.length > 0]; an array is truthy,
    so the conjunction is its second operand. *)
Definition addAction (entitiesState : list Entity) : ActionProps :=
  {| tooltip := "Add example components";
     isFreeAction := true;
     onClick := addMockData;
     hidden := Nat.ltb 0 (List.length entitiesState) |}.

Definition actions (entitiesState : list Entity) : list Action :=
  [ RowAction viewAction;
    RowAction editAction;
    RowAction favouriteAction;
    FixedAction (addAction entitiesState) ].

(** *** Rendering *)

Record TableColumn : Type := {
  column_title : string;
  field : string;
  highlight : bool
}.

Definition columns : list TableColumn :=
  [ {| column_title := "Name"; field := "metadata.name"; highlight := true |};
    {| column_title := "Owner"; field := "spec.owner"; highlight := false |};
    {| column_title := "Lifecycle"; field := "spec.lifecycle"; highlight := false |};
    {| column_title := "Description"; field := "metadata.description";
       highlight := false |} ].

Record TableOptions : Type := {
  paging : bool;
  actionsColumnIndex : Z;
  loadingType : string;
  showEmptyDataSourceMessage : bool
}.

Record TableProps : Type := {
  isLoading : bool;
  table_columns : list TableColumn;
  options : TableOptions;
  title : string;
  data : list Entity;
  table_actions : list Action
}.

(** What a render returns: the alert, the table, or nothing because the
    render threw. *)
Inductive View : Type :=
| Alert (severity text : string)
| Table (t : TableProps)
| RenderThrows.

Definition CatalogTable (p : CatalogTableProps) (h : Hooks) : View :=
  if truthy (errorState h) then
    match toString (errorState h) with
    | Some s =>
        Alert "error"
              ("Error encountered while fetching catalog entities." ++ " " ++ s)
    | None => RenderThrows
    end
  else
    Table
      {| isLoading := loading p;
         table_columns := columns;
         options := {| paging := false;
                       actionsColumnIndex := (-1)%Z;
                       loadingType := "linear";
                       showEmptyDataSourceMessage := negb (loading p) |};
         title := titlePreamble p ++ " ("
                  ++ string_of_length
                       (length_or (List.length (items (entities p))) 0)
                  ++ ")";
         data := entitiesState h;
         table_actions := actions (entitiesState h) |}.

(** *** The effect and the events of the component's life *)

(** [useEffect(() => { setError(error); setEntitiesState(entities); },
    [error, entities])]. *)
Definition mirrorProps (p : CatalogTableProps) : M unit :=
  setError (error p) ;;;
  setEntitiesState (items (entities p)).

Definition remember_deps (p : CatalogTableProps) (w : World) : World :=
  {| hooks := hooks w; deps := Some (error p, entities p);
     backend := backend w; log := log w |}.

(** The effects flushed after a render with props [p]. *)
Definition commitEffects (p : CatalogTableProps) (w : World) : World :=
  if depsChanged (deps w) p
  then remember_deps p (snd (mirrorProps p w))
  else remember_deps p w.

(** A freshly mounted component, before its first render. *)
Definition mount (b : Backend) : World :=
  {| hooks := initialHooks; deps := None; backend := b; log := [] |}.

(** The component after mounting with props [p]: the first render and the
    effects flushed after it. *)
Definition mounted (p : CatalogTableProps) (b : Backend) : World :=
  commitEffects p (mount b).

(** A click runs the action's handler to completion. *)
Definition click (a : ActionProps) (w : World) : World :=
  snd (onClick a w).

(** The calls made between [w] and a later world [w']. *)
Definition calls_since (w w' : World) : list LogEntry :=
  skipn (List.length (log w)) (log w').

(** *** What the table widget shows *)

(** Modelled from the spec: the [Table] widget of the shared UI library is
    not part of the sources.  It displays the actions that are not hidden
    (free actions in the toolbar, the others on each row) and, when asked to
    with [showEmptyDataSourceMessage], an empty-state message in place of
    the rows of an empty [data]. *)
Definition rowActionsOf (t : TableProps) (rowData : Entity) : list ActionProps :=
  flat_map (fun a => match a with
                     | RowAction f => [f rowData]
                     | FixedAction o =>
                         if isFreeAction o then [] else [o]
                     end)
           (table_actions t).

Definition freeActionsOf (t : TableProps) : list ActionProps :=
  flat_map (fun a => match a with
                     | RowAction _ => []
                     | FixedAction o =>
                         if isFreeAction o then [o] else []
                     end)
           (table_actions t).

Definition shown (acts : list ActionProps) : list ActionProps :=
  filter (fun a => negb (hidden a)) acts.

Definition visibleRowActions (v : View) (rowData : Entity) : list ActionProps :=
  match v with
  | Table t => shown (rowActionsOf t rowData)
  | _ => []
  end.

Definition visibleFreeActions (v : View) : list ActionProps :=
  match v with
  | Table t => shown (freeActionsOf t)
  | _ => []
  end.

Definition showsEmptyMessage (v : View) : bool :=
  match v with
  | Table t =>
      showEmptyDataSourceMessage (options t)
      && match data t with [] => true | _ => false end
  | _ => false
  end.

Definition tableRendered (v : View) : bool :=
  match v with
  | Table _ => true
  | _ => false
  end.

(** The errors thrown by the calls of a log. *)
Definition failures (cs : list LogEntry) : list JsValue :=
  flat_map (fun c => match failure c with Some e => [e] | None => [] end) cs.

(** The calls that register [files] under [baseUrl], with the promises
    [ps] they returned: one lookup of the base URL and one [addLocation]
    per file. *)
Fixpoint registrations (baseUrl : string) (files : list string)
    (ps : list (Promise LocationRecord)) : list LogEntry :=
  match files, ps with
  | file :: files', p :: ps' =>
      ConfigGetString "catalog.baseUrl" (Normal baseUrl)
      :: CatalogAddLocation "github" (baseUrl ++ "/" ++ file) p
      :: registrations baseUrl files' ps'
  | _, _ => []
  end.

(* ===================================================================== *)
(** ** Strings: [includes] and [replace]                                  *)
(* ===================================================================== *)

Lemma prefix_append (p t : string) : prefix p (p ++ t) = true.
Proof.
  induction p as [|c p IH]; simpl.
  - destruct t; reflexivity.
  - destruct (ascii_dec c c) as [_|N]; [exact IH | contradiction].
Qed.

Lemma prefix_split (p s : string) :
  prefix p s = true -> s = p ++ string_drop (String.length p) s.
Proof.
  revert s; induction p as [|c p IH]; intros s H; simpl.
  - reflexivity.
  - destruct s as [|d s]; simpl in H; [discriminate|].
    destruct (ascii_dec c d) as [->|_]; [|discriminate].
    simpl. f_equal. apply IH, H.
Qed.

Lemma append_assoc (a b c : string) : (a ++ b) ++ c = a ++ (b ++ c).
Proof. induction a as [|x a IH]; simpl; [reflexivity | now rewrite IH]. Qed.

Lemma includes_unfold (pat s : string) :
  includes pat s =
  if prefix pat s then true
  else match s with
       | EmptyString => false
       | String _ s' => includes pat s'
       end.
Proof. destruct s; reflexivity. Qed.

Lemma replace_unfold (pat rep s : string) :
  replace pat rep s =
  if prefix pat s then rep ++ string_drop (String.length pat) s
  else match s with
       | EmptyString => EmptyString
       | String c s' => String c (replace pat rep s')
       end.
Proof. destruct s; reflexivity. Qed.

Lemma includes_intro (pat a b : string) : includes pat (a ++ pat ++ b) = true.
Proof.
  induction a as [|c a IH].
  - rewrite includes_unfold. simpl. now rewrite prefix_append.
  - change (String c a ++ pat ++ b) with (String c (a ++ pat ++ b)).
    rewrite includes_unfold. cbv iota. rewrite IH.
    destruct (prefix pat (String c (a ++ pat ++ b))); reflexivity.
Qed.

Lemma includes_elim (pat s : string) :
  includes pat s = true -> exists a b, s = a ++ pat ++ b.
Proof.
  induction s as [|c s IH]; rewrite includes_unfold;
    destruct (prefix pat _) eqn:P; intros H; try discriminate.
  - exists "", (string_drop (String.length pat) ""). now apply prefix_split.
  - exists "", (string_drop (String.length pat) (String c s)).
    now apply prefix_split.
  - destruct (IH H) as (a & b & ->).
    exists (String c a), b. reflexivity.
Qed.

Lemma replace_absent (pat rep s : string) :
  includes pat s = false -> replace pat rep s = s.
Proof.
  induction s as [|c s IH]; rewrite includes_unfold, replace_unfold;
    destruct (prefix pat _); intros H; try discriminate.
  - reflexivity.
  - now rewrite IH.
Qed.

(** [replace] rewrites the leftmost occurrence and nothing else. *)
Lemma replace_present (pat rep s : string) :
  includes pat s = true ->
  exists a b,
    s = a ++ pat ++ b
    /\ (forall a' b', s = a' ++ pat ++ b' -> String.length a <= String.length a')
    /\ replace pat rep s = a ++ rep ++ b.
Proof.
  induction s as [|c s IH]; rewrite includes_unfold, replace_unfold;
    destruct (prefix pat _) eqn:P; intros H; try discriminate.
  - exists "", (string_drop (String.length pat) "").
    repeat split; [now apply prefix_split | intros; simpl; lia].
  - exists "", (string_drop (String.length pat) (String c s)).
    repeat split; [now apply prefix_split | intros; simpl; lia].
  - destruct (IH H) as (a & b & E & Hmin & R).
    exists (String c a), b. repeat split.
    + simpl. now rewrite E at 1.
    + intros a' b' E'. destruct a' as [|d a']; simpl in E'.
      * rewrite E', prefix_append in P. discriminate.
      * injection E' as _ E'. simpl. apply le_n_S, (Hmin a' b'), E'.
    + simpl. now rewrite R.
Qed.

(* ===================================================================== *)
(** ** Running [addMockData]                                              *)
(* ===================================================================== *)

Lemma failures_app (cs ds : list LogEntry) :
  failures (cs ++ ds)%list = (failures cs ++ failures ds)%list.
Proof. apply flat_map_app. Qed.

Lemma calls_since_app (w w' : World) (cs : list LogEntry) :
  log w' = (log w ++ cs)%list -> calls_since w w' = cs.
Proof.
  intros E. unfold calls_since. rewrite E, skipn_app, skipn_all, Nat.sub_diag.
  reflexivity.
Qed.

(** The registration calls made for promises that may have rejected. *)
Lemma first_rejection_failure (baseUrl : string) (files : list string) :
  forall ps t e,
    List.length ps = List.length files ->
    first_rejection ps = Some (t, e) ->
    In e (failures (registrations baseUrl files ps)).
Proof.
  induction files as [|file files IH]; intros [|p ps] t e L H;
    simpl in *; try discriminate.
  injection L as L.
  destruct (settled p) as [v|e0] eqn:S.
  - eauto.
  - destruct (first_rejection ps) as [[t' e']|] eqn:F.
    + destruct (Nat.leb (settledAt p) t'); injection H as _ <-.
      * now left.
      * right. eauto.
    + injection H as _ <-. now left.
Qed.

Lemma no_rejection_no_failure (baseUrl : string) (files : list string) :
  forall ps,
    first_rejection ps = None ->
    failures (registrations baseUrl files ps) = [].
Proof.
  induction files as [|file files IH]; intros [|p ps] H; simpl in *;
    try reflexivity.
  destruct (settled p) as [v|e0] eqn:S.
  - now apply IH.
  - destruct (first_rejection ps) as [[t' e']|]; [|discriminate].
    destruct (Nat.leb (settledAt p) t'); discriminate.
Qed.

Lemma no_failure_all_fulfilled (baseUrl : string) (files : list string) :
  forall ps,
    List.length ps = List.length files ->
    failures (registrations baseUrl files ps) = [] ->
    Forall (fun p => exists v, settled p = Fulfilled v) ps.
Proof.
  induction files as [|file files IH]; intros [|p ps] L H;
    simpl in *; try discriminate; constructor.
  - destruct (settled p); [eauto | discriminate].
  - injection L as L. apply IH; [exact L|].
    destruct (settled p); [exact H | discriminate].
Qed.

Lemma registrations_no_getEntities (baseUrl : string) (files : list string) :
  forall ps p, ~ In (CatalogGetEntities p) (registrations baseUrl files ps).
Proof.
  induction files as [|file files IH]; intros [|q ps] p; simpl; try tauto.
  intros [H|[H|H]]; try discriminate. exact (IH _ _ H).
Qed.

Lemma registerFile_run (file : string) (w : World) :
  registerFile file w =
  match getString configApi "catalog.baseUrl" with
  | Normal baseUrl =>
      let (p, b) :=
        addLocation catalogApi "github" (baseUrl ++ "/" ++ file) (backend w) in
      (Normal p,
       record (CatalogAddLocation "github" (baseUrl ++ "/" ++ file) p)
         (with_backend b
            (record (ConfigGetString "catalog.baseUrl" (Normal baseUrl)) w)))
  | Throw e =>
      (Throw e, record (ConfigGetString "catalog.baseUrl" (Throw e)) w)
  end.
Proof.
  unfold registerFile, bind, config_getString, catalog_addLocation.
  destruct (getString configApi "catalog.baseUrl"); reflexivity.
Qed.

Lemma mapM_cons {A B} (f : A -> M B) (x : A) (xs : list A) (w : World) :
  mapM f (x :: xs) w =
  match f x w with
  | (Normal y, w1) =>
      match mapM f xs w1 with
      | (Normal ys, w2) => (Normal (y :: ys), w2)
      | (Throw e, w2) => (Throw e, w2)
      end
  | (Throw e, w1) => (Throw e, w1)
  end.
Proof.
  cbn [mapM]. unfold bind, ret.
  destruct (f x w) as [[y|e] w1]; [|reflexivity].
  destruct (mapM f xs w1) as [[ys|e] w2]; reflexivity.
Qed.

(** Mapping the registration over [files]: either every base URL lookup
    returns and one [addLocation] per file is dispatched, or a lookup throws
    and the remaining files are not registered. *)
Lemma register_files_run (files : list string) :
  forall w r w',
    mapM registerFile files w = (r, w') ->
    hooks w' = hooks w /\ deps w' = deps w
    /\ exists cs,
        log w' = (log w ++ cs)%list
        /\ match r with
           | Normal ps =>
               List.length ps = List.length files
               /\ exists baseUrl,
                   (files = []
                    \/ getString configApi "catalog.baseUrl" = Normal baseUrl)
                   /\ cs = registrations baseUrl files ps
           | Throw e =>
               In e (failures cs)
               /\ forall p, ~ In (CatalogGetEntities p) cs
           end.
Proof.
  induction files as [|file files IH]; intros w r w' H.
  - injection H as <- <-. repeat split.
    exists []. rewrite app_nil_r. repeat split. exists "". auto.
  - rewrite mapM_cons, registerFile_run in H.
    destruct (getString configApi "catalog.baseUrl") as [baseUrl|e] eqn:G.
    + destruct (addLocation catalogApi "github" (baseUrl ++ "/" ++ file)
                  (backend w)) as [p b] eqn:A.
      destruct (mapM registerFile files _) as [r1 w1] eqn:R in H.
      destruct (IH _ _ _ R) as (Hh & Hd & cs & Hl & Hr).
      cbn in Hh, Hd, Hl.
      destruct r1 as [ps|e]; injection H as <- <-.
      * repeat split; try assumption.
        exists (ConfigGetString "catalog.baseUrl" (Normal baseUrl)
                :: CatalogAddLocation "github" (baseUrl ++ "/" ++ file) p :: cs).
        split.
        { rewrite Hl, <- !app_assoc. reflexivity. }
        destruct Hr as (L & base' & Hb & ->). split; [simpl; now rewrite L|].
        exists baseUrl. split; [now right|].
        destruct Hb as [->|Hb]; [now destruct ps|].
        now injection Hb as ->.
      * repeat split; try assumption.
        exists (ConfigGetString "catalog.baseUrl" (Normal baseUrl)
                :: CatalogAddLocation "github" (baseUrl ++ "/" ++ file) p :: cs).
        split.
        { rewrite Hl, <- !app_assoc. reflexivity. }
        destruct Hr as (Hin & Hno). split.
        { cbn. destruct (settled p); [exact Hin | now right]. }
        intros q [X|[X|X]]; try discriminate. exact (Hno q X).
    + injection H as <- <-. repeat split.
      exists [ConfigGetString "catalog.baseUrl" (Throw e)]. repeat split.
      * cbn. now left.
      * intros q [X|[]]. discriminate.
Qed.

(** [addMockData] with its sequencing and its handler written out. *)
Lemma addMockData_unfold (w : World) :
  addMockData w =
  match getStringArray configApi "catalog.entities" with
  | Throw e =>
      setError e
        (record (ConfigGetStringArray "catalog.entities" (Throw e)) w)
  | Normal files =>
      match mapM registerFile files
              (record (ConfigGetStringArray "catalog.entities" (Normal files)) w)
      with
      | (Throw e, w1) => setError e w1
      | (Normal ps, w1) =>
          match first_rejection ps with
          | Some (_, e) => setError e w1
          | None =>
              let (p, b) := getEntities catalogApi (backend w1) in
              let w2 := record (CatalogGetEntities p) (with_backend b w1) in
              match settled p with
              | Fulfilled data => setEntitiesState data w2
              | Rejected e => setError e w2
              end
          end
      end
  end.
Proof.
  unfold addMockData, try_catch, bind, config_getStringArray.
  destruct (getStringArray configApi "catalog.entities") as [files|e];
    [|reflexivity].
  destruct (mapM registerFile files _) as [[ps|e] w1]; [|reflexivity].
  unfold Promise_all.
  destruct (first_rejection ps) as [[t e]|]; [reflexivity|].
  cbn [await ret]. unfold catalog_getEntities.
  destruct (getEntities catalogApi (backend w1)) as [p b].
  destruct (settled p); reflexivity.
Qed.

(** What one run of [addMockData] does: the calls [cs] it makes, and either
    the success path (no call failed, the fetched entities replace the
    displayed ones) or the failure path (the error of a failed call is
    stored and the displayed entities are kept). *)
Lemma addMockData_run (w : World) :
  exists cs,
    log (snd (addMockData w)) = (log w ++ cs)%list
    /\ deps (snd (addMockData w)) = deps w
    /\ fst (addMockData w) = Normal tt
    /\ ((failures cs = []
         /\ exists files baseUrl ps data t,
             getStringArray configApi "catalog.entities" = Normal files
             /\ List.length ps = List.length files
             /\ (files = []
                 \/ getString configApi "catalog.baseUrl" = Normal baseUrl)
             /\ cs = (ConfigGetStringArray "catalog.entities" (Normal files)
                      :: registrations baseUrl files ps
                      ++ [CatalogGetEntities
                            {| settled := Fulfilled data; settledAt := t |}])%list
             /\ hooks (snd (addMockData w))
                = {| entitiesState := data;
                     errorState := errorState (hooks w) |})
        \/ (exists e,
             In e (failures cs)
             /\ hooks (snd (addMockData w))
                = {| entitiesState := entitiesState (hooks w);
                     errorState := e |}
             /\ forall p, In (CatalogGetEntities p) cs -> settled p = Rejected e)).
Proof.
  rewrite addMockData_unfold.
  destruct (getStringArray configApi "catalog.entities") as [files|e] eqn:G.
  - destruct (mapM registerFile files _) as [r w1] eqn:R.
    destruct (register_files_run _ _ _ _ R) as (Hh & Hd & cs & Hl & Hr).
    cbn in Hh, Hd, Hl.
    destruct r as [ps|e].
    + destruct Hr as (L & baseUrl & Hb & ->).
      destruct (first_rejection ps) as [[t e]|] eqn:F.
      * (* a registration rejected *)
        eexists. split; [cbn; rewrite Hl, <- app_assoc; reflexivity|].
        split; [exact Hd|]. split; [reflexivity|]. right. exists e. split.
        { cbn. eapply first_rejection_failure; eauto. }
        split; [cbn; now rewrite Hh|].
        intros p [X|X]; [discriminate|].
        now apply registrations_no_getEntities in X.
      * destruct (getEntities catalogApi (backend w1)) as [p b] eqn:E.
        destruct p as [[data|e] t]; cbn [settled].
        -- (* success *)
           exists (ConfigGetStringArray "catalog.entities" (Normal files)
                   :: registrations baseUrl files ps
                   ++ [CatalogGetEntities
                         {| settled := Fulfilled data; settledAt := t |}])%list.
           split; [cbn; rewrite Hl, <- !app_assoc; reflexivity|].
           split; [exact Hd|]. split; [reflexivity|]. left. split.
           { change (failures (?c :: ?l)) with (failures ([c] ++ l)%list).
             rewrite !failures_app, no_rejection_no_failure by exact F.
             reflexivity. }
           exists files, baseUrl, ps, data, t.
           repeat split; try assumption. cbn. now rewrite Hh.
        -- (* the fetch rejected *)
           exists (ConfigGetStringArray "catalog.entities" (Normal files)
                   :: registrations baseUrl files ps
                   ++ [CatalogGetEntities
                         {| settled := Rejected e; settledAt := t |}])%list.
           split; [cbn; rewrite Hl, <- !app_assoc; reflexivity|].
           split; [exact Hd|]. split; [reflexivity|]. right. exists e. split.
           { change (failures (?c :: ?l)) with (failures ([c] ++ l)%list).
             rewrite !failures_app. apply in_or_app. right.
             apply in_or_app. right. now left. }
           split; [cbn; now rewrite Hh|].
           intros q [X|X]; [discriminate|].
           apply in_app_or in X. destruct X as [X|[X|[]]].
           ++ now apply registrations_no_getEntities in X.
           ++ now injection X as <-.
    + (* a base URL lookup threw *)
      destruct Hr as (Hin & Hno).
      exists (ConfigGetStringArray "catalog.entities" (Normal files) :: cs).
      split; [cbn; rewrite Hl, <- app_assoc; reflexivity|].
      split; [exact Hd|]. split; [reflexivity|]. right. exists e. split.
      { cbn. exact Hin. }
      split; [cbn; now rewrite Hh|].
      intros p [X|X]; [discriminate|]. now apply Hno in X.
  - (* the file list lookup threw *)
    exists [ConfigGetStringArray "catalog.entities" (Throw e)].
    repeat split. right. exists e. repeat split.
    + cbn. now left.
    + intros p [X|[]]. discriminate.
Qed.

(* ===================================================================== *)
(** ** Properties of the component                                        *)
(* ===================================================================== *)

(** A render yields the table exactly when the displayed error is falsy. *)
Lemma render_cases (p : CatalogTableProps) (h : Hooks) :
  (truthy (errorState h) = true /\ tableRendered (CatalogTable p h) = false)
  \/ (truthy (errorState h) = false /\ tableRendered (CatalogTable p h) = true).
Proof.
  unfold CatalogTable. destruct (truthy (errorState h)) eqn:T; [left | right; auto].
  destruct (toString (errorState h)); auto.
Qed.

Lemma render_table (p : CatalogTableProps) (h : Hooks) :
  truthy (errorState h) = false ->
  CatalogTable p h =
  Table
    {| isLoading := loading p;
       table_columns := columns;
       options := {| paging := false;
                     actionsColumnIndex := (-1)%Z;
                     loadingType := "linear";
                     showEmptyDataSourceMessage := negb (loading p) |};
       title := titlePreamble p ++ " ("
                ++ string_of_length
                     (length_or (List.length (items (entities p))) 0)
                ++ ")";
       data := entitiesState h;
       table_actions := actions (entitiesState h) |}.
Proof. intros T. unfold CatalogTable. now rewrite T. Qed.

Lemma shown_visible (acts : list ActionProps) (a : ActionProps) :
  In a (shown acts) -> hidden a = false.
Proof.
  unfold shown. intros H. apply filter_In in H. destruct H as [_ H].
  now destruct (hidden a).
Qed.



(** C3 (amended). In every state in which the table is rendered (the
    displayed error is falsy), the "Add example components" action is
    visible exactly when the displayed entity sequence, the local state and
    not the prop, is empty. *)
Theorem add_action_visible_iff_no_rows (p : CatalogTableProps) (h : Hooks) :
  truthy (errorState h) = false ->
  In (addAction (entitiesState h)) (visibleFreeActions (CatalogTable p h))
  <-> List.length (entitiesState h) = 0.
Proof.
  intros T. rewrite (render_table p h T). cbn.
  destruct (entitiesState h) as [|e es]; cbn; split; intros H;
    auto; try discriminate; contradiction.
Qed.

(** C4. Whenever "Edit" can be clicked on a row, that is, whenever it is
    among the actions shown on the row, and the row's target contains
    [/blob/], the click opens the target with [/blob/] replaced by [/edit/]
    as [String.replace] does it, at its leftmost occurrence; whenever the
    target does not contain [/blob/], the handler opens the target itself,
    whatever the location type. *)
Theorem edit_click_opens
    (p : CatalogTableProps) (h : Hooks)
    (rowData : Entity) (l : LocationSpec) (w : World) :
  findLocationForEntityMeta (metadata rowData) = Some l ->
  (In (editAction rowData) (visibleRowActions (CatalogTable p h) rowData) ->
   includes "/blob/" (target l) = true ->
   click (editAction rowData) w
   = record (WindowOpen (replace "/blob/" "/edit/" (target l)) "_blank") w
   /\ exists a b,
       target l = a ++ "/blob/" ++ b
       /\ (forall a' b', target l = a' ++ "/blob/" ++ b' ->
                         String.length a <= String.length a')
       /\ replace "/blob/" "/edit/" (target l) = a ++ "/edit/" ++ b)
  /\ (includes "/blob/" (target l) = false ->
      click (editAction rowData) w = record (WindowOpen (target l) "_blank") w).
Proof.
  intros L. split.
  - intros V I.
    assert (G : String.eqb (type l) "github" = true).
    { destruct (CatalogTable p h); cbn in V; try contradiction.
      apply shown_visible in V. unfold editAction in V. cbn in V.
      rewrite L in V. cbn in V. now apply negb_false_iff in V. }
    split; [|apply replace_present, I].
    unfold click, editAction. cbn [onClick]. rewrite L.
    unfold createEditLink. now rewrite G.
  - intros I. unfold click, editAction. cbn [onClick]. rewrite L.
    unfold createEditLink. rewrite replace_absent by exact I.
    now destruct (String.eqb (type l) "github").
Qed.

(** C5. A click on "Add example components" during which no call fails
    reads the file list at [catalog.entities], then for each file in turn
    reads [catalog.baseUrl] and calls [addLocation('github', baseUrl/file)],
    all of whose promises fulfil, then calls [getEntities] and replaces the
    displayed entities with its result; the displayed error is untouched. *)
Theorem add_example_components_success
    (es : list Entity) (w w' : World) :
  w' = click (addAction es) w ->
  failures (calls_since w w') = [] ->
  exists files baseUrl ps data t,
    getStringArray configApi "catalog.entities" = Normal files
    /\ (files = [] \/ getString configApi "catalog.baseUrl" = Normal baseUrl)
    /\ List.length ps = List.length files
    /\ Forall (fun p => exists v, settled p = Fulfilled v) ps
    /\ calls_since w w'
       = (ConfigGetStringArray "catalog.entities" (Normal files)
          :: registrations baseUrl files ps
          ++ [CatalogGetEntities
                {| settled := Fulfilled data; settledAt := t |}])%list
    /\ hooks w'
       = {| entitiesState := data; errorState := errorState (hooks w) |}.
Proof.
  intros -> F. unfold click in *. cbn [onClick addAction] in *.
  destruct (addMockData_run w) as (cs & Hl & _ & _ & H).
  rewrite (calls_since_app _ _ _ Hl) in *.
  destruct H as [[_ H]|(e & Hin & _)]; [|rewrite F in Hin; contradiction].
  destruct H as (files & baseUrl & ps & data & t & G & L & B & -> & Hh).
  exists files, baseUrl, ps, data, t. repeat split; try assumption.
  apply (no_failure_all_fulfilled baseUrl files); [exact L|].
  change (failures (?c :: ?l)) with (failures ([c] ++ l)%list) in F.
  rewrite !failures_app in F.
  apply app_eq_nil in F. destruct F as [_ F].
  apply app_eq_nil in F. tauto.
Qed.


(** C7. For a row whose location is not of type [github], and for a row
    with no location, neither "View on GitHub" nor "Edit" is among the
    actions shown on the row. *)
Theorem non_github_row_hides_view_and_edit
    (p : CatalogTableProps) (h : Hooks) (rowData : Entity) :
  (forall l, findLocationForEntityMeta (metadata rowData) = Some l ->
             type l <> "github") ->
  hidden (viewAction rowData) = true
  /\ hidden (editAction rowData) = true
  /\ ~ In (viewAction rowData) (visibleRowActions (CatalogTable p h) rowData)
  /\ ~ In (editAction rowData) (visibleRowActions (CatalogTable p h) rowData).
Proof.
  intros N.
  assert (H : not_github (findLocationForEntityMeta (metadata rowData)) = true).
  { unfold not_github.
    destruct (findLocationForEntityMeta (metadata rowData)) as [l|] eqn:L;
      [|reflexivity].
    apply negb_true_iff, String.eqb_neq, (N l eq_refl). }
  assert (V : hidden (viewAction rowData) = true) by exact H.
  assert (E : hidden (editAction rowData) = true) by exact H.
  repeat split; try assumption; intros I.
  - destruct (CatalogTable p h); cbn in I; try contradiction.
    apply shown_visible in I. congruence.
  - destruct (CatalogTable p h); cbn in I; try contradiction.
    apply shown_visible in I. congruence.
Qed.

(** C8. Mounted with [entities = []], [loading = false] and
    [error = undefined], the component renders the table, on the first
    render and after the effect alike: the title is the preamble followed
    by [(0)], the empty-data message is shown and "Add example components"
    is the visible table-wide action. *)
Theorem empty_catalog_scenario (X : string) (r : nat) (b : Backend) :
  hooks (mounted {| entities := {| array_ref := r; items := [] |};
                    titlePreamble := X; loading := false;
                    error := JsUndefined |} b)
  = hooks (mount b)
  /\ exists t,
      CatalogTable {| entities := {| array_ref := r; items := [] |};
                titlePreamble := X; loading := false;
                error := JsUndefined |}
             (hooks (mount b))
      = Table t
      /\ title t = X ++ " (0)"
      /\ data t = []
      /\ showsEmptyMessage (Table t) = true
      /\ visibleFreeActions (Table t) = [addAction []].
Proof.
  split; [reflexivity|]. eexists. split; [reflexivity|].
  cbn. repeat split.
Qed.

(** The title of a rendered table is computed from the props alone. *)
Lemma title_from_props (p : CatalogTableProps) (h : Hooks) (t : TableProps) :
  CatalogTable p h = Table t ->
  title t
  = titlePreamble p ++ " ("
    ++ string_of_length (length_or (List.length (items (entities p))) 0)
    ++ ")".
Proof.
  unfold CatalogTable. destruct (truthy (errorState h)).
  - destruct (toString (errorState h)); discriminate.
  - intros H. injection H as <-. reflexivity.
Qed.

(** A successful "Add example components" changes the rows of the table
    and not its title. *)
Lemma title_kept_by_success
    (p : CatalogTableProps) (es : list Entity) (w w' : World) (t : TableProps) :
  w' = click (addAction es) w ->
  failures (calls_since w w') = [] ->
  CatalogTable p (hooks w) = Table t ->
  exists t',
    CatalogTable p (hooks w') = Table t'
    /\ title t' = title t
    /\ data t' = entitiesState (hooks w').
Proof.
  intros -> F R. unfold click in *. cbn [onClick addAction] in *.
  destruct (addMockData_run w) as (cs & Hl & _ & _ & H).
  rewrite (calls_since_app _ _ _ Hl) in *.
  destruct H as [[_ H]|(e & Hin & _)]; [|rewrite F in Hin; contradiction].
  destruct H as (files & baseUrl & ps & data & t0 & _ & _ & _ & _ & Hh).
  assert (T : truthy (errorState (hooks w)) = false).
  { destruct (render_cases p (hooks w)) as [[_ X]|[X _]]; [|exact X].
    rewrite R in X. discriminate. }
  rewrite Hh. rewrite (render_table p _ T) in R. injection R as <-.
  eexists. split; [apply render_table; exact T|]. split; reflexivity.
Qed.

(** C10. For a row with no location, a click on "View on GitHub" or on
    "Edit" changes nothing: no browser context is opened, no call is made
    and the component's state is the same. *)
Theorem unresolved_location_click_is_noop (rowData : Entity) (w : World) :
  findLocationForEntityMeta (metadata rowData) = None ->
  click (viewAction rowData) w = w
  /\ click (editAction rowData) w = w.
Proof.
  intros L. unfold click, viewAction, editAction. cbn [onClick].
  rewrite L. split; reflexivity.
Qed.

(* ===================================================================== *)
(** ** Further properties: what is rendered, and the row actions          *)
(* ===================================================================== *)

Lemma table_of_render (p : CatalogTableProps) (h : Hooks) (t : TableProps) :
  CatalogTable p h = Table t ->
  truthy (errorState h) = false
  /\ data t = entitiesState h
  /\ table_actions t = actions (entitiesState h)
  /\ showEmptyDataSourceMessage (options t) = negb (loading p).
Proof.
  unfold CatalogTable. destruct (truthy (errorState h)).
  - destruct (toString (errorState h)); discriminate.
  - intros H. injection H as <-. auto.
Qed.

Lemma length_append (a b : string) :
  String.length (a ++ b) = String.length a + String.length b.
Proof. induction a as [|c a IH]; simpl; [reflexivity | now rewrite IH]. Qed.

Lemma edit_differs_from_blob (a b : string) :
  a ++ "/edit/" ++ b <> a ++ "/blob/" ++ b.
Proof.
  induction a as [|c a IH]; simpl; intros H.
  - discriminate.
  - injection H as H. exact (IH H).
Qed.

Lemma record_inj (c c' : LogEntry) (w : World) :
  record c w = record c' w -> c = c'.
Proof.
  intros H. apply (f_equal log) in H. cbn in H.
  apply app_inv_head in H. now injection H.
Qed.

(** X1. A render throws exactly when the displayed error is truthy and its
    [toString()] call yields no text; it never throws for [undefined],
    [null], a boolean, a number, a bigint, a string or a standard [Error]
    instance.  The table is rendered exactly when the displayed error is
    falsy. *)
Theorem render_throws_iff (p : CatalogTableProps) (h : Hooks) :
  (CatalogTable p h = RenderThrows
   <-> truthy (errorState h) = true /\ toString (errorState h) = None)
  /\ ((forall r child, errorState h <> JsObject r child) ->
      CatalogTable p h <> RenderThrows)
  /\ tableRendered (CatalogTable p h) = negb (truthy (errorState h)).
Proof.
  assert (A : CatalogTable p h = RenderThrows
              <-> truthy (errorState h) = true
                  /\ toString (errorState h) = None).
  { unfold CatalogTable. destruct (truthy (errorState h)).
    - destruct (toString (errorState h)); split; intros H;
        try discriminate; auto. destruct H; discriminate.
    - split; [discriminate | intros [H _]; discriminate]. }
  split; [exact A|]. split.
  - intros N E. apply A in E. destruct E as [T S].
    destruct (errorState h) as [| |[|]|[| |]| | | |r c|]; try discriminate.
    exact (N r c eq_refl).
  - destruct (render_cases p h) as [[T R]|[T R]]; now rewrite T, R.
Qed.



(** X4. The empty-data message is shown exactly when no error is displayed,
    the table is not loading and no entity is displayed. *)
Theorem empty_message_iff (p : CatalogTableProps) (h : Hooks) :
  showsEmptyMessage (CatalogTable p h) = true
  <-> truthy (errorState h) = false
      /\ loading p = false
      /\ entitiesState h = [].
Proof.
  destruct (truthy (errorState h)) eqn:T.
  - unfold CatalogTable. rewrite T.
    destruct (toString (errorState h)); cbn;
      (split; [|intros [X _]]; discriminate).
  - rewrite (render_table p h T). cbn.
    destruct (loading p), (entitiesState h); cbn; split; intros H;
      try discriminate; try tauto; destruct H as (_ & A & B); discriminate.
Qed.

(** X5. Clicking any action shown on a row of a rendered table leaves the
    hook state, the effect dependencies and the catalog backend as they
    were; it makes no collaborator call and records at most one browser
    context or favourite toggle. *)
Theorem row_click_frame
    (p : CatalogTableProps) (h : Hooks) (t : TableProps)
    (rowData : Entity) (a : ActionProps) (w : World) :
  CatalogTable p h = Table t ->
  In a (rowActionsOf t rowData) ->
  hooks (click a w) = hooks w
  /\ deps (click a w) = deps w
  /\ backend (click a w) = backend w
  /\ (log (click a w) = log w
      \/ exists c, is_api_call c = false
                   /\ log (click a w) = (log w ++ [c])%list).
Proof.
  intros R I. destruct (table_of_render _ _ _ R) as (_ & _ & A & _).
  unfold rowActionsOf in I. rewrite A in I. cbn in I.
  destruct I as [<-|[<-|[<-|[]]]]; unfold click; cbn [onClick viewAction
    editAction favouriteAction].
  - destruct (findLocationForEntityMeta (metadata rowData)) as [l|]; cbn;
      repeat split; auto.
    right. eexists. split; [|reflexivity]. reflexivity.
  - destruct (findLocationForEntityMeta (metadata rowData)) as [l|]; cbn;
      repeat split; auto.
    right. eexists. split; [|reflexivity]. reflexivity.
  - cbn. repeat split.
    right. eexists. split; [|reflexivity]. reflexivity.
Qed.

(** X6. For a row with a location, "Edit" opens the same target as "View on
    GitHub" exactly when the location is not of type [github] or its target
    does not contain [/blob/]. *)
Theorem edit_same_as_view_iff
    (rowData : Entity) (l : LocationSpec) (w : World) :
  findLocationForEntityMeta (metadata rowData) = Some l ->
  click (editAction rowData) w = click (viewAction rowData) w
  <-> (type l <> "github" \/ includes "/blob/" (target l) = false).
Proof.
  intros L. unfold click, editAction, viewAction. cbn [onClick]. rewrite L.
  cbn. unfold createEditLink. split.
  - intros H. apply record_inj in H. injection H as H.
    destruct (String.eqb_spec (type l) "github") as [G|G]; [|now left].
    right. destruct (includes "/blob/" (target l)) eqn:I; [|reflexivity].
    destruct (replace_present "/blob/" "/edit/" _ I) as (a & b & E & _ & R).
    rewrite R in H. rewrite E in H. now apply edit_differs_from_blob in H.
  - intros [G|I].
    + apply String.eqb_neq in G. now rewrite G.
    + rewrite replace_absent by exact I.
      now destruct (String.eqb (type l) "github").
Qed.

(** X7. For a [github] location whose target contains [/blob/], the edit
    link contains [/edit/], has the length of the target and differs from
    it. *)
Theorem github_edit_link (l : LocationSpec) :
  type l = "github" ->
  includes "/blob/" (target l) = true ->
  includes "/edit/" (createEditLink l) = true
  /\ String.length (createEditLink l) = String.length (target l)
  /\ createEditLink l <> target l.
Proof.
  intros G I. unfold createEditLink. rewrite G, String.eqb_refl.
  destruct (replace_present "/blob/" "/edit/" _ I) as (a & b & E & _ & R).
  rewrite R. split; [apply includes_intro|]. rewrite E. split.
  - rewrite !length_append. reflexivity.
  - apply edit_differs_from_blob.
Qed.

(* ===================================================================== *)
(** ** Further properties: [addMockData] and the effect                   *)
(* ===================================================================== *)

Lemma first_rejection_none {A} (ps : list (Promise A)) :
  first_rejection ps = None
  <-> forall q, In q ps -> exists v, settled q = Fulfilled v.
Proof.
  induction ps as [|p ps IH]; simpl.
  - split; [intros _ q [] | reflexivity].
  - destruct (settled p) as [v|e] eqn:S.
    + rewrite IH. split.
      * intros H q [<-|I]; eauto.
      * intros H q I. apply H. now right.
    + split.
      * destruct (first_rejection ps) as [[t e']|]; [|discriminate].
        destruct (Nat.leb (settledAt p) t); discriminate.
      * intros H. destruct (H p (or_introl eq_refl)) as (v & X).
        congruence.
Qed.

(** The rejection [Promise.all] reports belongs to a promise that settles no
    later than any other rejected promise. *)
Lemma first_rejection_earliest {A} (ps : list (Promise A)) :
  forall t e,
    first_rejection ps = Some (t, e) ->
    exists q,
      In q ps /\ settled q = Rejected e /\ settledAt q = t
      /\ forall q' e', In q' ps -> settled q' = Rejected e' ->
                       t <= settledAt q'.
Proof.
  induction ps as [|p ps IH]; simpl; intros t e H; [discriminate|].
  destruct (settled p) as [v|e0] eqn:S.
  - destruct (IH _ _ H) as (q & I & Sq & Tq & M).
    exists q. repeat split; auto.
    intros q' e' [<-|I'] S'; [congruence | eauto].
  - destruct (first_rejection ps) as [[t1 e1]|] eqn:F.
    + destruct (IH _ _ eq_refl) as (q & I & Sq & Tq & M).
      destruct (Nat.leb (settledAt p) t1) eqn:C; injection H as <- <-.
      * apply Nat.leb_le in C. exists p. repeat split; auto.
        intros q' e' [<-|I'] S'; [lia|]. specialize (M _ _ I' S'). lia.
      * apply Nat.leb_gt in C. exists q. repeat split; auto.
        intros q' e' [<-|I'] S'; [lia | eauto].
    + injection H as <- <-. exists p. repeat split; auto.
      intros q' e' [<-|I'] S'; [lia|].
      destruct (proj1 (first_rejection_none ps) F q' I') as (v & X).
      congruence.
Qed.

Lemma registered_registrations (baseUrl : string) (files : list string) :
  forall ps,
    List.length ps = List.length files ->
    registered (registrations baseUrl files ps)
    = map (fun file => ("github", baseUrl ++ "/" ++ file)) files.
Proof.
  induction files as [|file files IH]; intros [|p ps] L; simpl in *;
    try discriminate; try reflexivity.
  injection L as L. now rewrite (IH ps L).
Qed.

Lemma registration_promise (baseUrl : string) (files : list string) :
  forall ps ty tgt q,
    In (CatalogAddLocation ty tgt q) (registrations baseUrl files ps) ->
    In q ps.
Proof.
  induction files as [|file files IH]; intros [|p ps] ty tgt q; simpl;
    try tauto.
  intros [H|[H|H]]; [discriminate | injection H as _ _ ->; now left |].
  right. eauto.
Qed.

Lemma promise_registration (baseUrl : string) (files : list string) :
  forall ps q,
    List.length ps = List.length files ->
    In q ps ->
    exists tgt,
      In (CatalogAddLocation "github" tgt q) (registrations baseUrl files ps).
Proof.
  induction files as [|file files IH]; intros [|p ps] q L I; simpl in *;
    try discriminate; try contradiction.
  injection L as L. destruct I as [<-|I].
  - eexists. right. left. reflexivity.
  - destruct (IH ps q L I) as (tgt & X). exists tgt. right. right. exact X.
Qed.

Lemma registrations_api_calls (baseUrl : string) (files : list string) :
  forall ps,
    Forall (fun c => is_api_call c = true) (registrations baseUrl files ps).
Proof.
  induction files as [|file files IH]; intros [|p ps]; simpl; auto.
Qed.

(** With the base URL configured no registration callback throws. *)
Lemma register_files_ok (baseUrl : string) (files : list string) :
  getString configApi "catalog.baseUrl" = Normal baseUrl ->
  forall w,
  exists ps w1,
    mapM registerFile files w = (Normal ps, w1)
    /\ List.length ps = List.length files
    /\ log w1 = (log w ++ registrations baseUrl files ps)%list
    /\ hooks w1 = hooks w /\ deps w1 = deps w.
Proof.
  intros B. induction files as [|file files IH]; intros w.
  - exists [], w. cbn. rewrite app_nil_r. auto.
  - rewrite mapM_cons, registerFile_run, B.
    destruct (addLocation catalogApi "github" (baseUrl ++ "/" ++ file)
                (backend w)) as [p b].
    destruct (IH (record (CatalogAddLocation "github" (baseUrl ++ "/" ++ file) p)
                    (with_backend b
                       (record (ConfigGetString "catalog.baseUrl"
                                  (Normal baseUrl)) w))))
      as (ps & w1 & -> & L & Hl & Hh & Hd).
    exists (p :: ps), w1. cbn in Hl, Hh, Hd. repeat split; auto.
    + simpl. now rewrite L.
    + rewrite Hl, <- !app_assoc. reflexivity.
Qed.

(** [addMockData] under a configuration holding both keys: every file is
    registered, and the rest depends on the registrations' promises. *)
Lemma addMockData_with_config
    (files : list string) (baseUrl : string) (w : World) :
  getStringArray configApi "catalog.entities" = Normal files ->
  getString configApi "catalog.baseUrl" = Normal baseUrl ->
  exists ps w1,
    List.length ps = List.length files
    /\ log w1
       = (log w ++ ConfigGetStringArray "catalog.entities" (Normal files)
                   :: registrations baseUrl files ps)%list
    /\ hooks w1 = hooks w /\ deps w1 = deps w
    /\ addMockData w
       = match first_rejection ps with
         | Some (_, e) => setError e w1
         | None =>
             let (p, b) := getEntities catalogApi (backend w1) in
             let w2 := record (CatalogGetEntities p) (with_backend b w1) in
             match settled p with
             | Fulfilled data => setEntitiesState data w2
             | Rejected e => setError e w2
             end
         end.
Proof.
  intros G B. rewrite addMockData_unfold, G.
  destruct (register_files_ok baseUrl files B
              (record (ConfigGetStringArray "catalog.entities" (Normal files)) w))
    as (ps & w1 & -> & L & Hl & Hh & Hd).
  exists ps, w1. cbn in Hl, Hh, Hd. repeat split; auto.
  rewrite Hl, <- app_assoc. reflexivity.
Qed.

Lemma register_files_api_calls (files : list string) :
  forall w,
  exists cs,
    log (snd (mapM registerFile files w)) = (log w ++ cs)%list
    /\ deps (snd (mapM registerFile files w)) = deps w
    /\ Forall (fun c => is_api_call c = true) cs.
Proof.
  induction files as [|file files IH]; intros w.
  - exists []. cbn. rewrite app_nil_r. auto.
  - rewrite mapM_cons, registerFile_run.
    destruct (getString configApi "catalog.baseUrl") as [baseUrl|e].
    + destruct (addLocation catalogApi "github" (baseUrl ++ "/" ++ file)
                  (backend w)) as [p b].
      match goal with
      | |- context [mapM registerFile files ?w0] =>
          destruct (IH w0) as (cs & Hl & Hd & Hf);
          destruct (mapM registerFile files w0) as [[ps|e] w1]
      end; cbn in Hl, Hd |- *;
        (eexists; split; [rewrite Hl, <- !app_assoc; reflexivity|];
         split; [exact Hd|]; repeat constructor; exact Hf).
    + eexists. cbn. split; [reflexivity|]. split; [reflexivity|].
      repeat constructor.
Qed.

(** X8. A click on "Add example components" never throws, whatever the
    collaborators do; it keeps the effect dependencies, and everything it
    records is a call to the config or catalog collaborator: it opens no
    browser context and toggles no favourite. *)
Theorem add_click_never_throws (es : list Entity) (w : World) :
  fst (onClick (addAction es) w) = Normal tt
  /\ deps (click (addAction es) w) = deps w
  /\ Forall (fun c => is_api_call c = true)
            (calls_since w (click (addAction es) w)).
Proof.
  unfold click. cbn [onClick addAction].
  destruct (addMockData_run w) as (cs0 & _ & Hd & Hn & _).
  split; [exact Hn|]. split; [exact Hd|].
  assert (H : exists cs, log (snd (addMockData w)) = (log w ++ cs)%list
                         /\ Forall (fun c => is_api_call c = true) cs).
  { rewrite addMockData_unfold.
    destruct (getStringArray configApi "catalog.entities") as [files|e].
    - match goal with
      | |- context [mapM registerFile files ?w0] =>
          destruct (register_files_api_calls files w0) as (cs & Hl & _ & Hf);
          destruct (mapM registerFile files w0) as [[ps|e] w1]
      end; cbn in Hl.
      + destruct (first_rejection ps) as [[t e]|].
        * eexists. cbn. split; [rewrite Hl, <- app_assoc; reflexivity|].
          constructor; [reflexivity | exact Hf].
        * destruct (getEntities catalogApi (backend w1)) as [p b].
          exists (ConfigGetStringArray "catalog.entities" (Normal files)
                  :: cs ++ [CatalogGetEntities p])%list.
          split.
          { destruct (settled p); cbn; rewrite Hl, <- !app_assoc;
              reflexivity. }
          constructor; [reflexivity|]. apply Forall_app. split; [exact Hf|].
          repeat constructor.
      + eexists. cbn. split; [rewrite Hl, <- app_assoc; reflexivity|].
        constructor; [reflexivity | exact Hf].
    - eexists. cbn. split; [reflexivity|]. repeat constructor. }
  destruct H as (cs & Hl & Hf). now rewrite (calls_since_app _ _ _ Hl).
Qed.




(** X12. Under a configuration holding both keys every file is registered,
    in order, as [('github', baseUrl/file)], whether or not registrations
    are refused: the registrations are not undone and not cut short by a
    rejection.  The entities are fetched exactly when every registration
    was fulfilled. *)
Theorem every_file_is_registered
    (es : list Entity) (files : list string) (baseUrl : string)
    (w w' : World) :
  getStringArray configApi "catalog.entities" = Normal files ->
  getString configApi "catalog.baseUrl" = Normal baseUrl ->
  w' = click (addAction es) w ->
  registered (calls_since w w')
  = map (fun file => ("github", baseUrl ++ "/" ++ file)) files
  /\ ((exists p, In (CatalogGetEntities p) (calls_since w w'))
      <-> (forall ty tgt q,
              In (CatalogAddLocation ty tgt q) (calls_since w w') ->
              exists v, settled q = Fulfilled v)).
Proof.
  intros G B ->. unfold click. cbn [onClick addAction].
  destruct (addMockData_with_config files baseUrl w G B)
    as (ps & w1 & L & Hl & _ & _ & ->).
  destruct (first_rejection ps) as [[t e]|] eqn:F.
  - assert (C : calls_since w (snd (setError e w1))
                = ConfigGetStringArray "catalog.entities" (Normal files)
                  :: registrations baseUrl files ps)
      by (apply calls_since_app; exact Hl).
    rewrite C. split; [cbn; now apply registered_registrations|].
    split.
    + intros (p & [X|X]); [discriminate|].
      now apply registrations_no_getEntities in X.
    + intros H. exfalso.
      destruct (first_rejection_earliest ps t e F) as (q & I & S & _).
      destruct (promise_registration baseUrl files ps q L I) as (tgt & X).
      destruct (H "github" tgt q (or_intror X)) as (v & Y). congruence.
  - destruct (getEntities catalogApi (backend w1)) as [p b].
    assert (C : calls_since w
                  (snd (match settled p with
                        | Fulfilled data =>
                            setEntitiesState data
                              (record (CatalogGetEntities p) (with_backend b w1))
                        | Rejected e =>
                            setError e
                              (record (CatalogGetEntities p) (with_backend b w1))
                        end))
                = (ConfigGetStringArray "catalog.entities" (Normal files)
                   :: registrations baseUrl files ps
                   ++ [CatalogGetEntities p])%list).
    { apply calls_since_app. destruct (settled p); cbn;
        rewrite Hl, <- !app_assoc; reflexivity. }
    cbv zeta. rewrite C. split.
    + change (registered (?c :: ?l)) with (registered ([c] ++ l)%list).
      unfold registered. rewrite !flat_map_app. cbn. rewrite app_nil_r.
      now apply registered_registrations.
    + split.
      * intros _ ty tgt q [X|X]; [discriminate|].
        apply in_app_or in X. destruct X as [X|[X|[]]]; [|discriminate].
        apply registration_promise in X.
        exact (proj1 (first_rejection_none ps) F q X).
      * intros _. exists p. right. apply in_or_app. right. now left.
Qed.


Lemma Object_is_refl (v : JsValue) : Object_is v v = true.
Proof.
  destruct v as [| |b|[|b|t]|z|s|r n m|r c|]; simpl; auto.
  - now destruct b.
  - now destruct b.
  - apply String.eqb_refl.
  - apply Z.eqb_refl.
  - apply String.eqb_refl.
  - apply Nat.eqb_refl.
  - apply Nat.eqb_refl.
Qed.

Lemma depsChanged_same (p : CatalogTableProps) :
  depsChanged (Some (error p, entities p)) p = false.
Proof. unfold depsChanged. now rewrite Object_is_refl, Nat.eqb_refl. Qed.

(** X14. What a click on "Add example components" leaves in the hook state,
    fetched entities or caught error, survives a re-render with the props
    of the previous render: the effect does not run and does not mirror the
    props again. *)
Theorem click_result_survives_same_props
    (p : CatalogTableProps) (es : list Entity) (w : World) :
  deps w = Some (error p, entities p) ->
  hooks (commitEffects p (click (addAction es) w))
  = hooks (click (addAction es) w).
Proof.
  intros D. unfold commitEffects.
  destruct (addMockData_run w) as (_ & _ & Hd & _).
  unfold click. cbn [onClick addAction]. rewrite Hd, D, depsChanged_same.
  reflexivity.
Qed.

(** X15. Flushing the effects twice for the same props is the same as
    flushing them once. *)
Theorem commitEffects_idempotent (p : CatalogTableProps) (w : World) :
  commitEffects p (commitEffects p w) = commitEffects p w.
Proof.
  unfold commitEffects at 1.
  assert (D : deps (commitEffects p w) = Some (error p, entities p)).
  { unfold commitEffects. destruct (depsChanged (deps w) p); reflexivity. }
  rewrite D, depsChanged_same.
  unfold commitEffects. destruct (depsChanged (deps w) p); reflexivity.
Qed.

Lemma length_or_zero (n : nat) : length_or n 0 = n.
Proof. unfold length_or. destruct n; reflexivity. Qed.

(** X16. Right after an effect run (on mount, or when [error] or
    [entities] changed) a rendered table shows the entities of the prop,
    and the count in its title is the number of its rows. *)
Theorem title_agrees_with_rows_after_effect
    (p : CatalogTableProps) (w : World) (t : TableProps) :
  depsChanged (deps w) p = true ->
  CatalogTable p (hooks (commitEffects p w)) = Table t ->
  data t = items (entities p)
  /\ title t
     = titlePreamble p ++ " ("
       ++ string_of_length (List.length (data t)) ++ ")".
Proof.
  intros C R. pose proof (title_from_props _ _ _ R) as T.
  destruct (table_of_render _ _ _ R) as (_ & D & _).
  unfold commitEffects in D. rewrite C in D. cbn in D.
  split; [exact D|]. rewrite T, D, length_or_zero. reflexivity.
Qed.

End Component.

Arguments hooks {Backend} w.
Arguments deps {Backend} w.
Arguments backend {Backend} w.
Arguments log {Backend} w.
Arguments record {Backend} c w.
Arguments mount {Backend} b.
Arguments mounted {Backend} p b.
Arguments commitEffects {Backend} p w.
Arguments click {Backend} a w.
Arguments calls_since {Backend} w w'.
Arguments addAction {Backend} configApi catalogApi entitiesState.
Arguments viewAction {Backend} findLocationForEntityMeta rowData.
Arguments editAction {Backend} findLocationForEntityMeta rowData.
Arguments CatalogTable {Backend} configApi catalogApi findLocationForEntityMeta
  isStarredEntity favouriteEntityTooltip p h.
Arguments Alert {Backend} severity text.
Arguments Table {Backend} t.
Arguments title {Backend} t.
Arguments data {Backend} t.
Arguments tableRendered {Backend} v.
Arguments visibleFreeActions {Backend} v.
Arguments visibleRowActions {Backend} v rowData.

(** *** The count printed in the title *)

Lemma decimal_acc_string_of_uint (d : Decimal.uint) :
  forall acc,
    decimal_acc (NilEmpty.string_of_uint d) acc = Some (Nat.of_uint_acc d acc).
Proof.
  induction d as [|d IH|d IH|d IH|d IH|d IH|d IH|d IH|d IH|d IH|d IH];
    intros acc; cbn [NilEmpty.string_of_uint decimal_acc Nat.of_uint_acc];
    try reflexivity;
    match goal with
    | |- context [digit_value ?c] =>
        let v := eval vm_compute in (digit_value c) in
        change (digit_value c) with v
    end;
    cbv beta iota; rewrite IH, Nat.tail_mul_spec; do 2 f_equal; lia.
Qed.

(** The printed length reads back, as a decimal numeral, as the length. *)
Lemma decimal_value_string_of_length (n : nat) :
  decimal_value (string_of_length n) = Some n.
Proof.
  unfold string_of_length, NilZero.string_of_uint.
  pose proof (DecimalNat.Unsigned.of_to n) as H. unfold Nat.of_uint in H.
  destruct (Nat.to_uint n) as [|d|d|d|d|d|d|d|d|d|d] eqn:E;
    [cbn in H; now subst| ..];
    rewrite <- H;
    match goal with
    | |- decimal_value (NilEmpty.string_of_uint ?u) = _ =>
        change (decimal_value (NilEmpty.string_of_uint u))
          with (decimal_acc (NilEmpty.string_of_uint u) 0)
    end;
    apply decimal_acc_string_of_uint.
Qed.

Lemma nzhead_not_D0 (d : Decimal.uint) :
  forall d', Decimal.nzhead d <> Decimal.D0 d'.
Proof. induction d; intros d'; cbn; try discriminate. apply IHd. Qed.

(** The printed length has no leading zero. *)
Lemma string_of_length_canonical (n : nat) :
  canonical_numeral (string_of_length n) = true.
Proof.
  unfold string_of_length.
  assert (N : Nat.to_uint n = Decimal.unorm (Nat.to_uint n)).
  { rewrite <- DecimalNat.Unsigned.to_of, DecimalNat.Unsigned.of_to.
    reflexivity. }
  unfold Decimal.unorm in N.
  pose proof (nzhead_not_D0 (Nat.to_uint n)) as Z.
  destruct (Decimal.nzhead (Nat.to_uint n)) as [|d|d|d|d|d|d|d|d|d|d];
    rewrite N; try reflexivity.
  now destruct (Z d).
Qed.

(** C9. The title of the table is the preamble followed, in parentheses, by
    the canonical decimal numeral of the length of the [entities] prop,
    whatever the displayed entities are; a successful "Add example
    components" replaces the rows and keeps the title, and the count in the
    title can then differ from the number of rows: with the sample
    collaborators the title reads [(0)] above two rows, and [(12)] above
    two rows when the prop holds twelve entities. *)
Theorem title_counts_the_entities_prop :
  (forall Backend configApi (catalogApi : CatalogApi Backend)
          findLocation isStarred favouriteTooltip p h t,
      CatalogTable configApi catalogApi findLocation isStarred favouriteTooltip p h
      = Table t ->
      title t
      = titlePreamble p ++ " ("
        ++ string_of_length (length_or (List.length (items (entities p))) 0)
        ++ ")"
      /\ exists numeral,
          title t = titlePreamble p ++ " (" ++ numeral ++ ")"
          /\ decimal_value numeral = Some (List.length (items (entities p)))
          /\ canonical_numeral numeral = true)
  /\ (forall Backend configApi (catalogApi : CatalogApi Backend)
             findLocation isStarred favouriteTooltip p es w w' t,
         w' = click (addAction configApi catalogApi es) w ->
         failures (calls_since w w') = [] ->
         CatalogTable configApi catalogApi findLocation isStarred favouriteTooltip
                p (hooks w) = Table t ->
         exists t',
           CatalogTable configApi catalogApi findLocation isStarred favouriteTooltip
                  p (hooks w') = Table t'
           /\ title t' = title t
           /\ data t' = entitiesState (hooks w'))
  /\ (exists t',
         CatalogTable sample_config sample_catalog sample_findLocation
                (fun _ => false) sample_favouriteTooltip
                (sample_props [] JsUndefined)
                (hooks (click (addAction sample_config sample_catalog [])
                              (mounted (sample_props [] JsUndefined) [])))
         = Table t'
         /\ title t' = "Components (0)"
         /\ List.length (data t') = 2)
  /\ (exists t',
         CatalogTable sample_config sample_catalog sample_findLocation
                (fun _ => false) sample_favouriteTooltip
                (sample_props (repeat (sample_row "artist-lookup") 12)
                              JsUndefined)
                (hooks (click (addAction sample_config sample_catalog [])
                              (mounted
                                 (sample_props
                                    (repeat (sample_row "artist-lookup") 12)
                                    JsUndefined) [])))
         = Table t'
         /\ title t' = "Components (12)"
         /\ List.length (data t') = 2).
Proof.
  split; [|split; [|split]].
  - intros. pose proof (title_from_props _ _ _ _ _ _ _ _ _ H) as T.
    split; [exact T|].
    exists (string_of_length (List.length (items (entities p)))).
    rewrite T, length_or_zero.
    split; [reflexivity|].
    split; [apply decimal_value_string_of_length
           | apply string_of_length_canonical].
  - intros. eapply title_kept_by_success; eassumption.
  - eexists. split; [vm_compute; reflexivity|]. split; reflexivity.
  - eexists. split; [vm_compute; reflexivity|]. split; reflexivity.
Qed.

(* ===================================================================== *)
(** ** The properties at the sample collaborators                         *)
(* ===================================================================== *)



(** A truthy object without a callable [toString] makes the render throw. *)
Example object_without_toString_throws :
  CatalogTable sample_config sample_catalog sample_findLocation
               (fun _ => false) sample_favouriteTooltip
               (sample_props [] (JsObject 5 None))
               (hooks (mounted (sample_props [] (JsObject 5 None))
                               ([] : list LocationSpec)))
  = RenderThrows (list LocationSpec).
Proof. reflexivity. Qed.

(** [NaN] is a falsy error value: the table is rendered. *)
Example NaN_error_renders_table :
  tableRendered
    (CatalogTable sample_config sample_catalog sample_findLocation
                  (fun _ => false) sample_favouriteTooltip
                  (sample_props [] (JsNumber NaN))
                  (hooks (mounted (sample_props [] (JsNumber NaN))
                                  ([] : list LocationSpec))))
  = true.
Proof. reflexivity. Qed.


Lemma add_action_visible_iff_no_rows_witness :
  let h := {| entitiesState := []; errorState := JsUndefined |} in
  truthy (errorState h) = false
  /\ (In (addAction sample_config sample_catalog (entitiesState h))
         (visibleFreeActions
            (CatalogTable sample_config sample_catalog sample_findLocation
                    (fun _ => false) sample_favouriteTooltip
                    (sample_props [] JsUndefined) h))
      <-> List.length (entitiesState h) = 0).
Proof.
  intros h. split; [reflexivity|].
  exact (add_action_visible_iff_no_rows _ sample_config sample_catalog
           sample_findLocation (fun _ => false) sample_favouriteTooltip
           (sample_props [] JsUndefined) h eq_refl).
Defined.

(** C3 as stated fails: with an error displayed and no entities, the action
    is not visible, since only the alert is rendered. *)
Lemma add_action_invisible_under_error :
  let p := sample_props [] (JsError 4 "TypeError" "Failed to fetch") in
  let h := hooks (mounted p ([] : list LocationSpec)) in
  List.length (entitiesState h) = 0
  /\ ~ In (addAction sample_config sample_catalog (entitiesState h))
          (visibleFreeActions
             (CatalogTable sample_config sample_catalog sample_findLocation
                     (fun _ => false) sample_favouriteTooltip p h)).
Proof.
  intros p h. split; [reflexivity|]. intros H. exact H.
Qed.

Lemma edit_click_opens_witness :
  let p := sample_props [sample_row "artist-lookup"] JsUndefined in
  let w := mounted p ([] : list LocationSpec) in
  let v := CatalogTable sample_config sample_catalog sample_findLocation
                        (fun _ => false) sample_favouriteTooltip p (hooks w) in
  let l := {| type := "github";
              target := "https://github.com/spotify/backstage/blob/master/artist-lookup.yaml" |} in
  sample_findLocation (metadata (sample_row "artist-lookup")) = Some l
  /\ In (editAction sample_findLocation (sample_row "artist-lookup"))
        (visibleRowActions v (sample_row "artist-lookup"))
  /\ includes "/blob/" (target l) = true
  /\ click (editAction sample_findLocation (sample_row "artist-lookup")) w
     = record
         (WindowOpen
            "https://github.com/spotify/backstage/edit/master/artist-lookup.yaml"
            "_blank") w.
Proof.
  intros p w v l.
  assert (V : In (editAction sample_findLocation (sample_row "artist-lookup"))
                 (visibleRowActions v (sample_row "artist-lookup")))
    by (right; left; reflexivity).
  split; [reflexivity|]. split; [exact V|]. split; [reflexivity|].
  exact (proj1 (proj1 (edit_click_opens _ sample_config sample_catalog
                         sample_findLocation (fun _ => false)
                         sample_favouriteTooltip p (hooks w)
                         (sample_row "artist-lookup") l w eq_refl)
                  V eq_refl)).
Defined.

(** The edit link of the sample GitHub location. *)
Example edit_click_sample :
  click (editAction sample_findLocation (sample_row "artist-lookup"))
        (mounted (sample_props [] JsUndefined) ([] : list LocationSpec))
  = record
      (WindowOpen
         "https://github.com/spotify/backstage/edit/master/artist-lookup.yaml"
         "_blank")
      (mounted (sample_props [] JsUndefined) []).
Proof. reflexivity. Qed.

Lemma add_example_components_success_witness :
  let w := mounted (sample_props [] JsUndefined) ([] : list LocationSpec) in
  let w' := click (addAction sample_config sample_catalog []) w in
  failures (calls_since w w') = []
  /\ exists files baseUrl ps data t,
      getStringArray sample_config "catalog.entities" = Normal files
      /\ (files = [] \/ getString sample_config "catalog.baseUrl" = Normal baseUrl)
      /\ List.length ps = List.length files
      /\ Forall (fun p => exists v, settled p = Fulfilled v) ps
      /\ calls_since w w'
         = (ConfigGetStringArray "catalog.entities" (Normal files)
            :: registrations baseUrl files ps
            ++ [CatalogGetEntities
                  {| settled := Fulfilled data; settledAt := t |}])%list
      /\ hooks w'
         = {| entitiesState := data; errorState := errorState (hooks w) |}.
Proof.
  intros w w'.
  assert (F : failures (calls_since w w') = []) by (vm_compute; reflexivity).
  split; [exact F|].
  exact (add_example_components_success _ sample_config sample_catalog
           [] w w' eq_refl F).
Defined.



Lemma non_github_row_hides_view_and_edit_witness :
  let h := {| entitiesState := [sample_row "billing"];
              errorState := JsUndefined |} in
  let v := CatalogTable sample_config sample_catalog sample_findLocation
                  (fun _ => false) sample_favouriteTooltip
                  (sample_props [sample_row "billing"] JsUndefined) h in
  (forall l, sample_findLocation (metadata (sample_row "billing")) = Some l ->
             type l <> "github")
  /\ ~ In (viewAction sample_findLocation (sample_row "billing"))
          (visibleRowActions v (sample_row "billing"))
  /\ ~ In (editAction sample_findLocation (sample_row "billing"))
          (visibleRowActions v (sample_row "billing")).
Proof.
  intros h v.
  assert (N : forall l,
             sample_findLocation (metadata (sample_row "billing")) = Some l ->
             type l <> "github").
  { intros l E. injection E as <-. discriminate. }
  split; [exact N|].
  exact (proj2 (proj2
           (non_github_row_hides_view_and_edit _ sample_config sample_catalog
              sample_findLocation (fun _ => false) sample_favouriteTooltip
              (sample_props [sample_row "billing"] JsUndefined) h
              (sample_row "billing") N))).
Defined.

Lemma unresolved_location_click_is_noop_witness :
  let w := mounted (sample_props [sample_row "orphan"] JsUndefined)
                   ([] : list LocationSpec) in
  sample_findLocation (metadata (sample_row "orphan")) = None
  /\ click (viewAction sample_findLocation (sample_row "orphan")) w = w
  /\ click (editAction sample_findLocation (sample_row "orphan")) w = w.
Proof.
  intros w. split; [reflexivity|].
  exact (unresolved_location_click_is_noop _ sample_findLocation
           (sample_row "orphan") w eq_refl).
Defined.

Lemma title_counts_the_entities_prop_witness :
  let w := mounted (sample_props [] JsUndefined) ([] : list LocationSpec) in
  let w' := click (addAction sample_config sample_catalog []) w in
  failures (calls_since w w') = []
  /\ exists t',
      CatalogTable sample_config sample_catalog sample_findLocation
             (fun _ => false) sample_favouriteTooltip
             (sample_props [] JsUndefined) (hooks w') = Table t'
      /\ title t' = "Components (0)"
      /\ data t' = entitiesState (hooks w').
Proof.
  intros w w'.
  assert (F : failures (calls_since w w') = []) by (vm_compute; reflexivity).
  split; [exact F|].
  exact (proj1 (proj2 title_counts_the_entities_prop) _ sample_config
           sample_catalog sample_findLocation (fun _ => false)
           sample_favouriteTooltip (sample_props [] JsUndefined) [] w w' _
           eq_refl F eq_refl).
Defined.

(* ===================================================================== *)
(** ** Sample runs                                                        *)
(* ===================================================================== *)

Example toString_error :
  toString (JsError 4 "TypeError" "Failed to fetch")
  = Some "TypeError: Failed to fetch".
Proof. reflexivity. Qed.

Example replace_leftmost_only :
  replace "/blob/" "/edit/" "https://github.com/o/r/blob/master/blob/c.yaml"
  = "https://github.com/o/r/edit/master/blob/c.yaml".
Proof. reflexivity. Qed.

Example replace_without_blob :
  replace "/blob/" "/edit/" "https://github.com/o/r/tree/master/c.yaml"
  = "https://github.com/o/r/tree/master/c.yaml".
Proof. reflexivity. Qed.

(** [Promise.all] reports the rejection that settles first, not the first
    in the array. *)
Example Promise_all_earliest_rejection :
  Promise_all
    [ {| settled := Rejected (JsString "slow"); settledAt := 5 |};
      {| settled := Fulfilled tt; settledAt := 1 |};
      {| settled := Rejected (JsString "fast"); settledAt := 2 |} ]
  = Rejected (JsString "fast").
Proof. reflexivity. Qed.

(** The calls of a successful click, in order. *)
Example successful_click_log :
  log (click (addAction sample_config sample_catalog [])
             (mounted (sample_props [] JsUndefined) []))
  = [ ConfigGetStringArray "catalog.entities"
        (Normal ["artist-lookup.yaml"; "playback-order.yaml"]);
      ConfigGetString "catalog.baseUrl"
        (Normal "https://github.com/spotify/backstage/blob/master/examples");
      CatalogAddLocation "github"
        "https://github.com/spotify/backstage/blob/master/examples/artist-lookup.yaml"
        {| settled :=
             Fulfilled
               {| location :=
                    {| type := "github";
                       target := "https://github.com/spotify/backstage/blob/master/examples/artist-lookup.yaml" |} |};
           settledAt := 0 |};
      ConfigGetString "catalog.baseUrl"
        (Normal "https://github.com/spotify/backstage/blob/master/examples");
      CatalogAddLocation "github"
        "https://github.com/spotify/backstage/blob/master/examples/playback-order.yaml"
        {| settled :=
             Fulfilled
               {| location :=
                    {| type := "github";
                       target := "https://github.com/spotify/backstage/blob/master/examples/playback-order.yaml" |} |};
           settledAt := 1 |};
      CatalogGetEntities
        {| settled :=
             Fulfilled
               (map sample_entity
                  [ {| type := "github";
                       target := "https://github.com/spotify/backstage/blob/master/examples/artist-lookup.yaml" |};
                    {| type := "github";
                       target := "https://github.com/spotify/backstage/blob/master/examples/playback-order.yaml" |} ]);
           settledAt := 0 |} ]%list.
Proof. reflexivity. Qed.

(** Without a base URL the first lookup throws: nothing is registered,
    nothing is fetched and the lookup's error is displayed. *)
Example click_without_baseUrl :
  let w := click (addAction sample_config_without_baseUrl sample_catalog [])
                 (mounted (sample_props [] JsUndefined) []) in
  log w
  = [ ConfigGetStringArray "catalog.entities"
        (Normal ["artist-lookup.yaml"; "playback-order.yaml"]);
      ConfigGetString "catalog.baseUrl"
        (Throw (JsError 2 "Error"
                  "Missing required config value at catalog.baseUrl")) ]%list
  /\ hooks w
     = {| entitiesState := [];
          errorState :=
            JsError 2 "Error"
                    "Missing required config value at catalog.baseUrl" |}
  /\ backend w = [].
Proof. repeat split. Qed.

(** A refused registration: both registrations are dispatched before the
    aggregate wait fails, and the catalog is not fetched. *)
Example click_with_failing_catalog :
  let w := click (addAction sample_config sample_failing_catalog [])
                 (mounted (sample_props [] JsUndefined) []) in
  List.length (log w) = 5
  /\ hooks w
     = {| entitiesState := [];
          errorState := JsError 3 "Error" "Request failed with 500" |}.
Proof. repeat split. Qed.

(* ===================================================================== *)
(** ** The link of the Name column                                        *)
(* ===================================================================== *)

Lemma optionalNamespaceAndName_eq (entity : Entity) :
  optionalNamespaceAndName entity
  = if String.eqb (namespace_or_empty (metadata entity)) ""
    then name (metadata entity)
    else if String.eqb (name (metadata entity)) ""
         then namespace_or_empty (metadata entity)
         else namespace_or_empty (metadata entity) ++ ":"
              ++ name (metadata entity).
Proof.
  unfold optionalNamespaceAndName, namespace_or_empty, filter_Boolean.
  destruct (namespace (metadata entity)) as [ns|]; cbn.
  - destruct (String.eqb_spec ns ""), (String.eqb_spec (name (metadata entity)) "");
      cbn; congruence.
  - destruct (String.eqb_spec (name (metadata entity)) ""); cbn; congruence.
Qed.

Lemma prefix_empty (s : string) : prefix "" s = true.
Proof. destruct s; reflexivity. Qed.

Lemma includes_colon_cons (c : ascii) (s : string) :
  includes ":" (String c s) = false ->
  c <> ":"%char /\ includes ":" s = false.
Proof.
  rewrite includes_unfold. cbn [prefix].
  destruct (ascii_dec ":" c) as [<-|N].
  - rewrite prefix_empty. discriminate.
  - intros H. split; [congruence | exact H].
Qed.

Lemma colon_split_unique (a : string) :
  forall a' b b',
    includes ":" a = false -> includes ":" a' = false ->
    a ++ ":" ++ b = a' ++ ":" ++ b' ->
    a = a' /\ b = b'.
Proof.
  induction a as [|c a IH]; intros [|c' a'] b b' Ha Ha' E; simpl in E.
  - injection E as ->. auto.
  - injection E as <- _. apply includes_colon_cons in Ha'. tauto.
  - injection E as -> _. apply includes_colon_cons in Ha. tauto.
  - injection E as -> E.
    apply includes_colon_cons in Ha. apply includes_colon_cons in Ha'.
    destruct (IH a' b b' (proj2 Ha) (proj2 Ha') E) as [-> ->]. auto.
Qed.

(** X17. The route parameter of the Name link is the bare name when the
    entity has no namespace, or an empty one; it is [namespace:name] when
    both are non-empty; and with an empty name it is the namespace alone. *)
Theorem optionalNamespaceAndName_values (entity : Entity) :
  (namespace_or_empty (metadata entity) = "" ->
   optionalNamespaceAndName entity = name (metadata entity))
  /\ (namespace_or_empty (metadata entity) <> "" ->
      name (metadata entity) <> "" ->
      optionalNamespaceAndName entity
      = namespace_or_empty (metadata entity) ++ ":" ++ name (metadata entity))
  /\ (name (metadata entity) = "" ->
      optionalNamespaceAndName entity = namespace_or_empty (metadata entity)).
Proof.
  rewrite optionalNamespaceAndName_eq.
  destruct (String.eqb_spec (namespace_or_empty (metadata entity)) "") as [N|N],
           (String.eqb_spec (name (metadata entity)) "") as [M|M];
    repeat split; intros; congruence.
Qed.

(** X18. Entities with non-empty names whose names and namespaces contain
    no colon get the same route parameter only if they have the same name
    and the same namespace (an absent namespace counting as empty). *)
Theorem optionalNamespaceAndName_injective (e1 e2 : Entity) :
  name (metadata e1) <> "" ->
  name (metadata e2) <> "" ->
  includes ":" (namespace_or_empty (metadata e1)) = false ->
  includes ":" (name (metadata e1)) = false ->
  includes ":" (namespace_or_empty (metadata e2)) = false ->
  includes ":" (name (metadata e2)) = false ->
  optionalNamespaceAndName e1 = optionalNamespaceAndName e2 ->
  name (metadata e1) = name (metadata e2)
  /\ namespace_or_empty (metadata e1) = namespace_or_empty (metadata e2).
Proof.
  intros M1 M2 Hs1 Hn1 Hs2 Hn2. rewrite !optionalNamespaceAndName_eq.
  apply String.eqb_neq in M1, M2. rewrite M1, M2.
  destruct (String.eqb_spec (namespace_or_empty (metadata e1)) "") as [N1|N1],
           (String.eqb_spec (namespace_or_empty (metadata e2)) "") as [N2|N2];
    intros E.
  - split; congruence.
  - rewrite E, includes_intro in Hn1. discriminate.
  - rewrite <- E, includes_intro in Hn2. discriminate.
  - destruct (colon_split_unique _ _ _ _ Hs1 Hs2 E). auto.
Qed.

(** With a colon in a name the route parameter is ambiguous. *)
Example optionalNamespaceAndName_collision :
  optionalNamespaceAndName
    {| kind := "Component";
       metadata := {| name := "b:c"; namespace := Some "a";
                      description := None; annotations := [] |};
       spec := {| owner := None; lifecycle := None |} |}
  = optionalNamespaceAndName
      {| kind := "Component";
         metadata := {| name := "c"; namespace := Some "a:b";
                        description := None; annotations := [] |};
         spec := {| owner := None; lifecycle := None |} |}.
Proof. reflexivity. Qed.

(* ===================================================================== *)
(** ** The further properties at the sample collaborators                 *)
(* ===================================================================== *)

Arguments with_hooks {Backend} h w.
Arguments with_backend {Backend} b w.
Arguments rowActionsOf {Backend} t rowData.
Arguments favouriteAction {Backend} isStarredEntity favouriteEntityTooltip
  rowData.

Lemma render_throws_iff_witness :
  let h := {| entitiesState := [];
              errorState := JsError 4 "TypeError" "Failed to fetch" |} in
  (forall r child, errorState h <> JsObject r child)
  /\ CatalogTable sample_config sample_catalog sample_findLocation
                  (fun _ => false) sample_favouriteTooltip
                  (sample_props [] JsUndefined) h
     <> RenderThrows (list LocationSpec).
Proof.
  intros h.
  assert (N : forall r child, errorState h <> JsObject r child)
    by (intros r child; discriminate).
  split; [exact N|].
  exact (proj1 (proj2 (render_throws_iff _ sample_config sample_catalog
                         sample_findLocation (fun _ => false)
                         sample_favouriteTooltip
                         (sample_props [] JsUndefined) h)) N).
Defined.



Lemma row_click_frame_witness :
  let w := mounted (sample_props [sample_row "artist-lookup"] JsUndefined)
                   ([] : list LocationSpec) in
  let a := editAction sample_findLocation (sample_row "artist-lookup") in
  exists t,
    CatalogTable sample_config sample_catalog sample_findLocation
                 (fun _ => false) sample_favouriteTooltip
                 (sample_props [sample_row "artist-lookup"] JsUndefined)
                 (hooks w)
    = Table t
    /\ In a (rowActionsOf t (sample_row "artist-lookup"))
    /\ hooks (click a w) = hooks w
    /\ deps (click a w) = deps w
    /\ backend (click a w) = backend w
    /\ (log (click a w) = log w
        \/ exists c, is_api_call c = false
                     /\ log (click a w) = (log w ++ [c])%list).
Proof.
  intros w a. eexists. split; [reflexivity|].
  match goal with
  | |- In _ (rowActionsOf ?t ?r) /\ _ =>
      assert (I : In a (rowActionsOf t r)) by (right; left; reflexivity)
  end.
  split; [exact I|].
  exact (row_click_frame _ sample_config sample_catalog sample_findLocation
           (fun _ => false) sample_favouriteTooltip
           (sample_props [sample_row "artist-lookup"] JsUndefined)
           (hooks w) _ (sample_row "artist-lookup") a w eq_refl I).
Defined.

Lemma edit_same_as_view_iff_witness :
  let w := mounted (sample_props [] JsUndefined) ([] : list LocationSpec) in
  let l := {| type := "gitlab";
              target := "https://gitlab.com/acme/billing/-/blob/master/billing.yaml" |} in
  sample_findLocation (metadata (sample_row "billing")) = Some l
  /\ (click (editAction sample_findLocation (sample_row "billing")) w
      = click (viewAction sample_findLocation (sample_row "billing")) w
      <-> (type l <> "github" \/ includes "/blob/" (target l) = false)).
Proof.
  intros w l. split; [reflexivity|].
  exact (edit_same_as_view_iff _ sample_findLocation (sample_row "billing")
           l w eq_refl).
Defined.

Lemma github_edit_link_witness :
  let l := {| type := "github";
              target := "https://github.com/spotify/backstage/blob/master/artist-lookup.yaml" |} in
  type l = "github"
  /\ includes "/blob/" (target l) = true
  /\ includes "/edit/" (createEditLink l) = true
  /\ String.length (createEditLink l) = String.length (target l)
  /\ createEditLink l <> target l.
Proof.
  intros l. split; [reflexivity|]. split; [reflexivity|].
  exact (github_edit_link l eq_refl eq_refl).
Defined.




Lemma every_file_is_registered_witness :
  let w := mounted (sample_props [] JsUndefined) ([] : list LocationSpec) in
  let w' := click (addAction sample_config sample_flaky_catalog []) w in
  let baseUrl := "https://github.com/spotify/backstage/blob/master/examples" in
  getStringArray sample_config "catalog.entities"
  = Normal ["artist-lookup.yaml"; "playback-order.yaml"]
  /\ getString sample_config "catalog.baseUrl" = Normal baseUrl
  /\ registered (calls_since w w')
     = map (fun file => ("github", baseUrl ++ "/" ++ file))
           ["artist-lookup.yaml"; "playback-order.yaml"]
  /\ ((exists p, In (CatalogGetEntities p) (calls_since w w'))
      <-> (forall ty tgt q,
              In (CatalogAddLocation ty tgt q) (calls_since w w') ->
              exists v, settled q = Fulfilled v)).
Proof.
  intros w w' baseUrl. split; [reflexivity|]. split; [reflexivity|].
  exact (every_file_is_registered _ sample_config sample_flaky_catalog []
           ["artist-lookup.yaml"; "playback-order.yaml"] baseUrl w w'
           eq_refl eq_refl eq_refl).
Defined.


(** With the sample backend that refuses later registrations sooner, the
    displayed error is the one of the second file. *)
Example flaky_catalog_displays_second_rejection :
  errorState
    (hooks (click (addAction sample_config sample_flaky_catalog [])
                  (mounted (sample_props [] JsUndefined) [])))
  = JsError 11 "Error"
      "https://github.com/spotify/backstage/blob/master/examples/playback-order.yaml".
Proof. reflexivity. Qed.

Lemma click_result_survives_same_props_witness :
  let p := sample_props [] JsUndefined in
  let w := mounted p ([] : list LocationSpec) in
  deps w = Some (error p, entities p)
  /\ hooks (commitEffects p (click (addAction sample_config sample_catalog []) w))
     = hooks (click (addAction sample_config sample_catalog []) w).
Proof.
  intros p w. split; [reflexivity|].
  exact (click_result_survives_same_props _ sample_config sample_catalog
           p [] w eq_refl).
Defined.

Lemma title_agrees_with_rows_after_effect_witness :
  let p := sample_props [sample_row "artist-lookup"; sample_row "billing"]
                        JsUndefined in
  let w := mount ([] : list LocationSpec) in
  depsChanged (deps w) p = true
  /\ exists t,
      CatalogTable sample_config sample_catalog sample_findLocation
                   (fun _ => false) sample_favouriteTooltip p
                   (hooks (commitEffects p w))
      = Table t
      /\ data t = items (entities p)
      /\ title t
         = titlePreamble p ++ " ("
           ++ string_of_length (List.length (data t)) ++ ")".
Proof.
  intros p w. split; [reflexivity|]. eexists. split; [reflexivity|].
  exact (title_agrees_with_rows_after_effect _ sample_config sample_catalog
           sample_findLocation (fun _ => false) sample_favouriteTooltip
           p w _ eq_refl eq_refl).
Defined.

Lemma optionalNamespaceAndName_values_witness :
  let entity :=
    {| kind := "Component";
       metadata := {| name := "artist-lookup"; namespace := Some "default";
                      description := None; annotations := [] |};
       spec := {| owner := None; lifecycle := None |} |} in
  namespace_or_empty (metadata entity) <> ""
  /\ name (metadata entity) <> ""
  /\ optionalNamespaceAndName entity = "default:artist-lookup".
Proof.
  intros entity.
  assert (N : namespace_or_empty (metadata entity) <> "") by discriminate.
  assert (M : name (metadata entity) <> "") by discriminate.
  split; [exact N|]. split; [exact M|].
  exact (proj1 (proj2 (optionalNamespaceAndName_values entity)) N M).
Defined.

Lemma optionalNamespaceAndName_injective_witness :
  let e1 :=
    {| kind := "Component";
       metadata := {| name := "artist-lookup"; namespace := None;
                      description := None; annotations := [] |};
       spec := {| owner := None; lifecycle := None |} |} in
  let e2 :=
    {| kind := "API";
       metadata := {| name := "artist-lookup"; namespace := Some "";
                      description := Some "lookup"; annotations := [] |};
       spec := {| owner := Some "guest"; lifecycle := None |} |} in
  optionalNamespaceAndName e1 = optionalNamespaceAndName e2
  /\ name (metadata e1) = name (metadata e2)
  /\ namespace_or_empty (metadata e1) = namespace_or_empty (metadata e2).
Proof.
  intros e1 e2. split; [reflexivity|].
  assert (M1 : name (metadata e1) <> "") by discriminate.
  assert (M2 : name (metadata e2) <> "") by discriminate.
  exact (optionalNamespaceAndName_injective e1 e2 M1 M2
           eq_refl eq_refl eq_refl eq_refl eq_refl).
Defined.
